(** * TradingApp, [db.py]: the query runner

    A shallow embedding of [main] of [db.py]: the script reads two
    environment variables and four command-line options, builds a filter,
    runs one [find] on a collection, optionally limits the cursor, and
    prints every document after turning its [_id] into text.

    - Python [str] is a list of Unicode code points ([N]).
    - [os.environ] is a finite map from names to values ([gmap]).
    - A Python [dict] (the filter, a document) is an association list in
      insertion order; [d[k] = v] on a present key keeps its position.
    - The driver calls and [print] are events of a trace; [SystemExit]
      and the exceptions of the driver, which nothing catches, are the
      errors of a small writer/error monad. *)

From Stdlib Require Import ZArith NArith Ascii String Strings.Byte DecimalString Lia.
From stdpp Require Import base numbers list strings gmap.

(** ** Python strings *)

Abbreviation codepoint := N.
Abbreviation pystr := (list codepoint).

(** A string literal of the source, as code points. *)
Fixpoint lit (s : string) : pystr :=
  match s with
  | EmptyString => []
  | String a s' => N_of_ascii a :: lit s'
  end.

(** The characters [str.strip()] removes when called without argument:
    those for which [str.isspace] holds. *)
Definition is_space (c : codepoint) : bool :=
  ((0x09 <=? c) && (c <=? 0x0D) || (0x1C <=? c) && (c <=? 0x20)
   || (c =? 0x85) || (c =? 0xA0) || (c =? 0x1680)
   || (0x2000 <=? c) && (c <=? 0x200A)
   || (c =? 0x2028) || (c =? 0x2029) || (c =? 0x202F) || (c =? 0x205F)
   || (c =? 0x3000))%N.

Fixpoint lstrip (s : pystr) : pystr :=
  match s with
  | [] => []
  | c :: s' => if is_space c then lstrip s' else s
  end.

Fixpoint rstrip (s : pystr) : pystr :=
  match s with
  | [] => []
  | c :: s' =>
      match rstrip s' with
      | [] => if is_space c then [] else [c]
      | r => c :: r
      end
  end.

(** [s.strip()] *)
Definition strip (s : pystr) : pystr := rstrip (lstrip s).

(** [str.upper()] maps every code point through Unicode's full uppercase
    mapping, one code point at a time (a code point may expand to
    several).  On ASCII the mapping is written out; the table for the
    rest of Unicode is data of the interpreter and is taken as given. *)
Class UnicodeData := { unicode_upper : codepoint -> pystr }.

Definition ascii_upper (c : codepoint) : codepoint :=
  (if (0x61 <=? c) && (c <=? 0x7A) then c - 0x20 else c)%N.

Definition ascii_lower (c : codepoint) : codepoint :=
  (if (0x41 <=? c) && (c <=? 0x5A) then c + 0x20 else c)%N.

Definition to_upper_full `{UnicodeData} (c : codepoint) : pystr :=
  if (c <? 0x80)%N then [ascii_upper c] else unicode_upper c.

(** [s.upper()] *)
Definition upper `{UnicodeData} (s : pystr) : pystr :=
  flat_map to_upper_full s.

(** Truthiness of an optional string: [None] and [""] are falsy.  The
    result is the value itself when it is truthy. *)
Definition truthy (o : option pystr) : option pystr :=
  match o with
  | Some (c :: s) => Some (c :: s)
  | _ => None
  end.

(** [a or b] for an optional string [a] and a string [b]. *)
Definition py_or (a : option pystr) (b : pystr) : pystr :=
  match truthy a with
  | Some s => s
  | None => b
  end.

(** ** Values of a document and [str()] *)

(** The values a document holds.  A value of any type other than the
    first five (a float, a date, an array, a sub-document, ...) is
    [Other]: the name of its type and the text [str()] gives for it. *)

Inductive value :=
| ObjectId (oid : list byte)
| Str (s : pystr)
| Int (n : Z)
| Bool (b : bool)
| PyNone
| Other (type_name text : pystr).

Global Instance byte_eq_dec : EqDecision byte := Byte.byte_eq_dec.

Global Instance value_eq_dec : EqDecision value.
Proof. solve_decision. Defined.

Definition hex_digit (d : N) : codepoint :=
  (if d <? 10 then 0x30 + d else 0x61 + (d - 10))%N.

(** [binascii.hexlify]: two lowercase hexadecimal digits per byte. *)
Definition hexlify (bs : list byte) : pystr :=
  flat_map (fun b => [hex_digit (Byte.to_N b / 16); hex_digit (Byte.to_N b mod 16)]%N) bs.

(** [str(v)] *)
Definition py_str (v : value) : pystr :=
  match v with
  | ObjectId oid => hexlify oid
  | Str s => s
  | Int n => lit (NilZero.string_of_int (Z.to_int n))
  | Bool true => lit "True"
  | Bool false => lit "False"
  | PyNone => lit "None"
  | Other _ text => text
  end.

(** ** Dictionaries *)

Abbreviation dict := (list (pystr * value)).

(** [d.get(k)] *)
Fixpoint getitem (k : pystr) (d : dict) : option value :=
  match d with
  | [] => None
  | (k', v) :: d' => if decide (k' = k) then Some v else getitem k d'
  end.

(** [k in d] *)
Definition contains (k : pystr) (d : dict) : bool :=
  match getitem k d with
  | Some _ => true
  | None => false
  end.

(** [d[k] = v]: a present key keeps its place, a new key goes last. *)
Fixpoint setitem (k : pystr) (v : value) (d : dict) : dict :=
  match d with
  | [] => [(k, v)]
  | (k', v') :: d' =>
      if decide (k' = k) then (k', v) :: d' else (k', v') :: setitem k v d'
  end.

Definition keys (d : dict) : list pystr := map fst d.

(** ** The store *)

(** The contents of the store: the documents of every collection of
    every database, in the store's natural order. *)
Definition store := pystr -> pystr -> list dict.

(** Modelled from the spec: the driver's matching rule ([pymongo] is not
    part of the repository).  A filter maps field names to expected
    values; a document matches when every field of the filter has the
    expected value in it, so the empty filter matches every document. *)
Definition matches (query document : dict) : bool :=
  forallb (fun kv => bool_decide (getitem kv.1 document = Some kv.2)) query.

(** Modelled from the spec: [Collection.find] of the driver, the finite
    sequence of the matching documents in the store's order. *)
Definition find_cursor (documents : list dict) (query : dict) : list dict :=
  List.filter (matches query) documents.

(** Modelled from the spec: [Cursor.limit] of the driver, a take-first-n
    over the sequence.  The driver reads a limit of 0 as no limit and a
    negative limit by its absolute value; [main] passes neither. *)
Definition limit_cursor (n : Z) (cursor : list dict) : list dict :=
  if (n =? 0)%Z then cursor else take (Z.to_nat (Z.abs n)) cursor.

(** ** Effects *)

Inductive event :=
| PrintHelp
| PrintUsage
| MongoClient (uri : pystr)
| Find (db_name collection : pystr) (query : dict)
| Limit (n : Z)
| Yield (document : dict)
| Print (document : dict).

(** The exceptions of the driver: a connection string it does not accept,
    a database or collection name it does not accept, a deployment that
    does not answer the query. *)
Inductive driver_error := InvalidURI | InvalidName | NoAnswer.

(** The argument of [SystemExit]: a status, or a message. *)
Inductive exit_arg :=
| Status (n : Z)
| Message (s : pystr).

Inductive result (A : Type) :=
| Done (a : A)
| SystemExit (arg : exit_arg)
| Raised (e : driver_error).
Arguments Done {A} a.
Arguments SystemExit {A} arg.
Arguments Raised {A} e.

(** A computation gives the events it performed, in order, and either a
    value or the exception that ended it. *)
Definition io (A : Type) : Type := list event * result A.

Definition ret {A} (a : A) : io A := ([], Done a).

Definition bind {A B} (m : io A) (f : A -> io B) : io B :=
  match m with
  | (t, Done a) => let '(t', r) := f a in (t ++ t', r)
  | (t, SystemExit arg) => (t, SystemExit arg)
  | (t, Raised e) => (t, Raised e)
  end.

Definition emit (e : event) : io unit := ([e], Done tt).

Definition raise_SystemExit {A} (arg : exit_arg) : io A :=
  ([], SystemExit arg).

Definition raise {A} (e : driver_error) : io A := ([], Raised e).

Declare Scope io_scope.
Delimit Scope io_scope with io.
Notation "x <- m ;; k" := (bind m (fun x => k))
  (at level 100, m at next level, right associativity) : io_scope.
Notation "m ;; k" := (bind m (fun _ => k))
  (at level 100, right associativity) : io_scope.

(** What the process leaves behind.  The exit status: 0 on normal
    completion, the status given to [SystemExit], 1 for [SystemExit]
    with a message and for an exception nothing catches. *)
Definition exit_status {A} (r : io A) : Z :=
  match r.2 with
  | Done _ => 0
  | SystemExit (Status n) => n
  | SystemExit (Message _) => 1
  | Raised _ => 1
  end.

(** What is written to the standard error stream: the usage message of
    the parser, the message of [SystemExit], the traceback of an
    exception. *)
Inductive diagnostic :=
| UsageMessage
| Text (s : pystr)
| Traceback (e : driver_error).

Definition stderr {A} (r : io A) : list diagnostic :=
  flat_map (fun e => match e with PrintUsage => [UsageMessage] | _ => [] end) r.1
  ++ match r.2 with
     | SystemExit (Message s) => [Text s]
     | Raised e => [Traceback e]
     | _ => []
     end.

Definition trace {A} (r : io A) : list event := r.1.

(** The documents written to the standard output, one line each. *)
Fixpoint printed (t : list event) : list dict :=
  match t with
  | [] => []
  | Print d :: t' => d :: printed t'
  | _ :: t' => printed t'
  end.

(** The result sequence: the documents the cursor handed over, as
    retrieved from the store. *)
Fixpoint yielded (t : list event) : list dict :=
  match t with
  | [] => []
  | Yield d :: t' => d :: yielded t'
  | _ :: t' => yielded t'
  end.

(** The filters of the queries sent to the store. *)
Fixpoint filters_sent (t : list event) : list dict :=
  match t with
  | [] => []
  | Find _ _ q :: t' => q :: filters_sent t'
  | _ :: t' => filters_sent t'
  end.

(** The connection strings of the connections opened. *)
Fixpoint connections (t : list event) : list pystr :=
  match t with
  | [] => []
  | MongoClient uri :: t' => uri :: connections t'
  | _ :: t' => connections t'
  end.

(** The calls of the driver, which are all the network I/O of the script. *)
Definition is_driver_call (e : event) : bool :=
  match e with
  | MongoClient _ | Find _ _ _ | Limit _ | Yield _ => true
  | PrintHelp | PrintUsage | Print _ => false
  end.

Definition network_io (t : list event) : list event :=
  List.filter is_driver_call t.

(** ** The driver *)

(** The checks of the driver and the state of the deployment are given
    from outside the script: which connection strings [MongoClient]
    accepts, which names [mongo_client[...]] and [db[...]] accept (the
    others raise [InvalidName]), and whether the deployment at a
    connection string answers a query on a collection (it can be reached
    and lets the client read).  A deployment that answers delivers the
    whole result sequence. *)
Class Driver := {
  valid_uri : pystr -> bool;
  valid_database_name : pystr -> bool;
  valid_collection_name : pystr -> bool;
  answers : pystr -> pystr -> pystr -> bool
}.

Record Database := { d_client : pystr; d_name : pystr }.

Record Collection := { c_database : Database; c_name : pystr }.

(** A cursor is lazy: it holds the query and the limit, and the query is
    sent when the cursor is first iterated. *)
Record Cursor := {
  cur_collection : Collection;
  cur_filter : dict;
  cur_limit : option Z
}.

(** [MongoClient(uri)] *)
Definition new_MongoClient `{Driver} (uri : pystr) : io pystr :=
  if valid_uri uri then (emit (MongoClient uri) ;; ret uri)%io else raise InvalidURI.

(** [mongo_client[name]] *)
Definition get_database `{Driver} (mongo_client : pystr) (name : pystr) : io Database :=
  if valid_database_name name
  then ret {| d_client := mongo_client; d_name := name |}
  else raise InvalidName.

(** [db[name]] *)
Definition get_collection `{Driver} (db : Database) (name : pystr) : io Collection :=
  if valid_collection_name name
  then ret {| c_database := db; c_name := name |}
  else raise InvalidName.

(** [col.find(query)] *)
Definition col_find (col : Collection) (query : dict) : io Cursor :=
  ret {| cur_collection := col; cur_filter := query; cur_limit := None |}.

(** [cursor.limit(n)] *)
Definition cursor_limit (n : Z) (cursor : Cursor) : io Cursor :=
  (emit (Limit n) ;;
   ret {| cur_collection := cur_collection cursor; cur_filter := cur_filter cursor;
          cur_limit := Some n |})%io.

(** The first step of an iteration: the query goes to the store, which
    answers with the result sequence or not at all. *)
Definition fetch `{Driver} (st : store) (cursor : Cursor) : io (list dict) :=
  let db := d_name (c_database (cur_collection cursor)) in
  let coll := c_name (cur_collection cursor) in
  if answers (d_client (c_database (cur_collection cursor))) db coll
  then
    (emit (Find db coll (cur_filter cursor)) ;;
     let matching := find_cursor (st db coll) (cur_filter cursor) in
     ret match cur_limit cursor with
         | Some n => limit_cursor n matching
         | None => matching
         end)%io
  else raise NoAnswer.

(** The rounds of the loop: the cursor hands over one document of the
    result sequence per round ([Yield]). *)
Fixpoint iterate (documents : list dict) (body : dict -> io unit) : io unit :=
  match documents with
  | [] => ret tt
  | document :: documents' =>
      (emit (Yield document) ;; body document ;; iterate documents' body)%io
  end.

(** [for document in cursor: body document] *)
Definition for_each `{Driver} (st : store) (cursor : Cursor) (body : dict -> io unit)
    : io unit :=
  (documents <- fetch st cursor ;; iterate documents body)%io.

(** ** The program *)

(** [os.getenv(name)] *)
Definition getenv (environ : gmap pystr pystr) (name : string) : option pystr :=
  environ !! lit name.

(** The options given on the command line; [None] is an option that was
    not passed.  [--limit] carries the integer [int()] made of its text. *)
Record command_line := {
  opt_db_name : option pystr;
  opt_collection : option pystr;
  opt_symbol : option pystr;
  opt_limit : option Z
}.

(** The arguments of the process, as the parser takes them: it meets
    [-h] or [--help]; or it finds a usage error (an unknown argument, a
    [--limit] that is no integer, an option without its value); or it
    accepts them, with the options read. *)
Inductive arguments :=
| AskHelp
| Rejected
| Accepted (argv : command_line).

(** The [args] namespace. *)
Record namespace := {
  db_name : pystr;
  collection : pystr;
  symbol : option pystr;
  limit : option Z
}.

(** The namespace of an accepted command line, with the defaults of the
    four [add_argument] calls. *)
Definition namespace_of (environ : gmap pystr pystr) (argv : command_line) : namespace :=
  {| db_name :=
       default (py_or (getenv environ "MONGODB_DB") (lit "TradingApp")) (opt_db_name argv);
     collection := default (lit "HistoricalData") (opt_collection argv);
     symbol := opt_symbol argv;
     limit := opt_limit argv |}.

(** [parser.parse_args()]: the help text and exit status 0, the usage
    message and exit status 2, or the namespace. *)
Definition parse_args (environ : gmap pystr pystr) (args : arguments) : io namespace :=
  match args with
  | AskHelp => (emit PrintHelp ;; raise_SystemExit (Status 0))%io
  | Rejected => (emit PrintUsage ;; raise_SystemExit (Status 2))%io
  | Accepted argv => ret (namespace_of environ argv)
  end.

(** Truthiness of an integer. *)
Definition int_truthy (n : Z) : bool := negb (n =? 0)%Z.

Definition main `{UnicodeData} `{Driver}
    (environ : gmap pystr pystr) (argv : arguments) (st : store) : io unit :=
  (args <- parse_args environ argv ;;
   match truthy (getenv environ "MONGODB_URI") with
   | None =>
       raise_SystemExit (Message (lit "MONGODB_URI environment variable is not set."))
   | Some uri =>
       mongo_client <- new_MongoClient uri ;;
       db <- get_database mongo_client (db_name args) ;;
       col <- get_collection db (collection args) ;;
       let query := [] in
       let query :=
         match truthy (symbol args) with
         | Some s => setitem (lit "symbol") (Str (upper (strip s))) query
         | None => query
         end in
       cursor <- col_find col query ;;
       cursor <-
         match limit args with
         | Some n =>
             if int_truthy n && (0 <? n)%Z then cursor_limit n cursor else ret cursor
         | None => ret cursor
         end ;;
       for_each st cursor (fun document =>
         let document :=
           match getitem (lit "_id") document with
           | Some id => setitem (lit "_id") (Str (py_str id)) document
           | None => document
           end in
         emit (Print document))
   end)%io.

(** ** Notions used to state the properties *)

(** A string made of whitespace only. *)
Definition all_space (s : pystr) : Prop := forallb is_space s = true.

(** [w] is [t] up to the case of its ASCII letters. *)
Definition same_letters (w t : pystr) : Prop := map ascii_lower w = map ascii_lower t.

(** The command line [argv] with one option taken away or replaced. *)
Definition set_symbol (s : option pystr) (argv : command_line) : command_line :=
  {| opt_db_name := opt_db_name argv; opt_collection := opt_collection argv;
     opt_symbol := s; opt_limit := opt_limit argv |}.

Definition set_limit (n : option Z) (argv : command_line) : command_line :=
  {| opt_db_name := opt_db_name argv; opt_collection := opt_collection argv;
     opt_symbol := opt_symbol argv; opt_limit := n |}.

(** No call of the driver raises: it accepts the connection string and
    the two names, and the deployment answers the query. *)
Definition driver_accepts `{Driver} (uri : pystr) (args : namespace) : Prop :=
  valid_uri uri = true
  /\ valid_database_name (db_name args) = true
  /\ valid_collection_name (collection args) = true
  /\ answers uri (db_name args) (collection args) = true.

(** In the trace [t] of a run on the accepted command line [argv] in the
    environment [environ], [q] is the filter sent to the store: every
    query of [t] carries [q], and the one query of the run is there
    whenever [MONGODB_URI] is set and non-empty and no call of the driver
    raises. *)
Definition sends_filter `{Driver}
    (environ : gmap pystr pystr) (argv : command_line) (t : list event) (q : dict) : Prop :=
  (forall q' : dict, q' ∈ filters_sent t -> q' = q)
  /\ (forall uri : pystr,
        getenv environ "MONGODB_URI" = Some uri -> uri <> [] ->
        driver_accepts uri (namespace_of environ argv) ->
        filters_sent t = [q]).

(** The connection string of a run that gets to the documents. *)
Definition reaches_store `{Driver}
    (environ : gmap pystr pystr) (argv : command_line) : option pystr :=
  match truthy (getenv environ "MONGODB_URI") with
  | Some uri =>
      if valid_uri uri
         && valid_database_name (db_name (namespace_of environ argv))
         && valid_collection_name (collection (namespace_of environ argv))
         && answers uri (db_name (namespace_of environ argv))
              (collection (namespace_of environ argv))
      then Some uri else None
  | None => None
  end.

(** The pieces of a run of [main], named for the lemmas on its trace. *)
Definition query_of `{UnicodeData} (sym : option pystr) : dict :=
  match truthy sym with
  | Some s => [(lit "symbol", Str (upper (strip s)))]
  | None => []
  end.

Definition limit_applies (l : option Z) : option Z :=
  match l with
  | Some n => if int_truthy n && (0 <? n)%Z then Some n else None
  | None => None
  end.

Definition limited (l : option Z) (cursor : list dict) : list dict :=
  match limit_applies l with
  | Some n => limit_cursor n cursor
  | None => cursor
  end.

Definition limit_events (l : option Z) : list event :=
  match limit_applies l with
  | Some n => [Limit n]
  | None => []
  end.

Definition id_as_text (document : dict) : dict :=
  match getitem (lit "_id") document with
  | Some id => setitem (lit "_id") (Str (py_str id)) document
  | None => document
  end.

Definition loop_events (cursor : list dict) : list event :=
  flat_map (fun d => [Yield d; Print (id_as_text d)]) cursor.

(** ** Data to run the model on *)

(** No code point above ASCII occurs in the data below, so the table for
    the rest of Unicode is never consulted there. *)
Definition ascii_only : UnicodeData := {| unicode_upper := fun c => [c] |}.

(** A driver that takes every non-empty connection string and name, with
    a deployment that answers. *)
Definition online : Driver :=
  {| valid_uri := fun uri => negb (bool_decide (uri = []));
     valid_database_name := fun name => negb (bool_decide (name = []));
     valid_collection_name := fun name => negb (bool_decide (name = []));
     answers := fun _ _ _ => true |}.

(** The same driver with a deployment that cannot be reached. *)
Definition offline : Driver :=
  {| valid_uri := fun uri => negb (bool_decide (uri = []));
     valid_database_name := fun name => negb (bool_decide (name = []));
     valid_collection_name := fun name => negb (bool_decide (name = []));
     answers := fun _ _ _ => false |}.

Definition no_options : command_line :=
  {| opt_db_name := None; opt_collection := None; opt_symbol := None; opt_limit := None |}.

Definition uri_only : gmap pystr pystr :=
  {[ lit "MONGODB_URI" := lit "mongodb://localhost" ]}.

Definition uri_and_db : gmap pystr pystr :=
  <[ lit "MONGODB_DB" := lit "Paper" ]> uri_only.

Definition aapl : dict :=
  [(lit "_id", ObjectId [x65; x4f; x1a; x00; x00; x00; x00; x00; x00; x00; x00; xff]);
   (lit "symbol", Str (lit "AAPL")); (lit "price", Int 1)].

Definition msft : dict :=
  [(lit "symbol", Str (lit "MSFT")); (lit "price", Int 2)].

Definition foo_doc : dict :=
  [(lit "symbol", Str (lit "FOO")); (lit "_id", Int 7)].

Definition blank_doc : dict :=
  [(lit "_id", Int (-3)); (lit "symbol", Str [])].

(** A document whose [_id] and [price] are floats. *)
Definition float_doc : dict :=
  [(lit "_id", Other (lit "float") (lit "2.5")); (lit "symbol", Str (lit "GOOG"));
   (lit "price", Other (lit "float") (lit "101.25"))].

(** A store whose only collection is [TradingApp.HistoricalData]. *)
Definition sample_store : store :=
  fun db coll =>
    if decide (db = lit "TradingApp" /\ coll = lit "HistoricalData")
    then [aapl; msft; foo_doc; blank_doc] else [].

Definition empty_store : store := fun _ _ => [].

Definition empty_symbol : command_line := set_symbol (Some []) no_options.

Definition blank_symbol : command_line := set_symbol (Some (lit "  ")) no_options.

Definition padded_foo : command_line := set_symbol (Some (lit " fOo ")) no_options.

Definition limit_two : command_line := set_limit (Some 2%Z) no_options.

Definition limit_minus_one : command_line := set_limit (Some (-1)%Z) no_options.

Definition unknown_symbol : command_line := set_symbol (Some (lit "zzz")) no_options.

Definition limit_nine : command_line := set_limit (Some 9%Z) no_options.

Definition lower_msft : command_line := set_symbol (Some (lit "msft")) no_options.

Definition padded_msft : command_line := set_symbol (Some (lit "  MsFt ")) no_options.

(** [--db-name Paper --collection Archive] *)
Definition paper_archive : command_line :=
  {| opt_db_name := Some (lit "Paper"); opt_collection := Some (lit "Archive");
     opt_symbol := None; opt_limit := None |}.

(** [--db-name ""] *)
Definition empty_db_name : command_line :=
  {| opt_db_name := Some []; opt_collection := None;
     opt_symbol := None; opt_limit := None |}.


(** The sample store with a second collection, [Paper.Archive]. *)
Definition two_collections : store :=
  fun db coll =>
    if decide (db = lit "Paper" /\ coll = lit "Archive")
    then [msft; float_doc] else sample_store db coll.

(** * Properties *)

(** ** Strings *)

Ltac case_leb :=
  repeat match goal with
    | |- context [N.leb ?a ?b] => destruct (N.leb_spec a b)
    | |- context [N.ltb ?a ?b] => destruct (N.ltb_spec a b)
    | |- context [N.eqb ?a ?b] => destruct (N.eqb_spec a b)
    | H : context [N.leb ?a ?b] |- _ => destruct (N.leb_spec a b)
    | H : context [N.ltb ?a ?b] |- _ => destruct (N.ltb_spec a b)
    | H : context [N.eqb ?a ?b] |- _ => destruct (N.eqb_spec a b)
    end.

Lemma truthy_None (o : option pystr) :
  truthy o = None <-> o = None \/ o = Some [].
Proof.
  destruct o as [[|c s]|]; simpl; split; intros Ho; auto;
    try discriminate; destruct Ho; discriminate.
Qed.

Lemma truthy_Some (o : option pystr) (s : pystr) :
  truthy o = Some s <-> o = Some s /\ s <> [].
Proof.
  destruct o as [[|c s']|]; simpl; split.
  all: try (intros [? ?]; congruence); try discriminate.
  intros [= <-]. split; [reflexivity | discriminate].
Qed.

Lemma all_space_app (a b : pystr) :
  all_space (a ++ b) <-> all_space a /\ all_space b.
Proof.
  unfold all_space. rewrite forallb_app. apply andb_true_iff.
Qed.

Lemma lstrip_app_space (ws s : pystr) :
  all_space ws -> lstrip (ws ++ s) = lstrip s.
Proof.
  unfold all_space. induction ws as [|c ws IH]; simpl; [reflexivity|].
  intros [Hc Hws]%andb_true_iff. rewrite Hc. auto.
Qed.

Lemma rstrip_space (ws : pystr) : all_space ws -> rstrip ws = [].
Proof.
  unfold all_space. induction ws as [|c ws IH]; simpl; [reflexivity|].
  intros [Hc Hws]%andb_true_iff. rewrite (IH Hws), Hc. reflexivity.
Qed.

Lemma rstrip_app_space (s ws : pystr) :
  all_space ws -> rstrip (s ++ ws) = rstrip s.
Proof.
  intros Hws. induction s as [|c s IH]; simpl.
  - apply rstrip_space, Hws.
  - rewrite IH. reflexivity.
Qed.

Lemma strip_padded (ws1 w ws2 : pystr) :
  all_space ws1 -> all_space ws2 -> strip (ws1 ++ w ++ ws2) = strip w.
Proof.
  intros H1 H2. unfold strip. rewrite (lstrip_app_space _ _ H1).
  clear H1. induction w as [|c w IH]; simpl.
  - assert (lstrip ws2 = []) as ->; [|reflexivity].
    rewrite <- (app_nil_r ws2). apply (lstrip_app_space ws2 []), H2.
  - destruct (is_space c); [exact IH|].
    apply (rstrip_app_space (c :: w)), H2.
Qed.

Lemma strip_all_space (s : pystr) : all_space s -> strip s = [].
Proof.
  intros Hs. rewrite <- (app_nil_r s).
  change (s ++ []) with (s ++ [] ++ []).
  rewrite strip_padded; [reflexivity | exact Hs | reflexivity].
Qed.

Lemma rstrip_no_trailing_space (s : pystr) (c : codepoint) :
  is_space c = false -> rstrip (s ++ [c]) = s ++ [c].
Proof.
  intros Hc. induction s as [|a s IH]; simpl.
  - rewrite Hc. reflexivity.
  - rewrite IH. destruct s; reflexivity.
Qed.

Lemma ascii_lower_ascii (c c' : codepoint) :
  (c' < 0x80)%N -> ascii_lower c = ascii_lower c' ->
  (c < 0x80)%N /\ ascii_upper c = ascii_upper c'.
Proof.
  unfold ascii_lower, ascii_upper. intros Hc'.
  case_leb; simpl; intros Heq; lia.
Qed.

Lemma upper_same_letters `{UnicodeData} (w t : pystr) :
  Forall (fun c => (c < 0x80)%N) t -> same_letters w t -> upper w = upper t.
Proof.
  unfold same_letters, upper. intros Ht. revert w.
  induction Ht as [|c' t Hc' Ht IH]; intros [|c w]; simpl; try discriminate.
  - reflexivity.
  - intros [= Hc Hw].
    destruct (ascii_lower_ascii c c' Hc' Hc) as [Hlt Hup].
    rewrite (IH w Hw). unfold to_upper_full.
    apply N.ltb_lt in Hlt, Hc'. rewrite Hlt, Hc', Hup. reflexivity.
Qed.

Lemma ascii_lower_inv (c l : codepoint) :
  ascii_lower c = l -> c = l \/ (c + 0x20 = l)%N.
Proof.
  unfold ascii_lower. destruct (_ && _); auto.
Qed.

Lemma same_letters_foo (w : pystr) :
  same_letters w (lit "foo") ->
  exists a b c, w = [a; b; c] /\ is_space a = false /\ is_space c = false.
Proof.
  unfold same_letters. destruct w as [|a [|b [|c [|d w]]]]; try discriminate.
  change (map ascii_lower (lit "foo")) with [102; 111; 111]%N.
  intros [= Ha Hb Hc]. exists a, b, c.
  split; [reflexivity|].
  apply ascii_lower_inv in Ha, Hc.
  assert (a = 102 \/ a = 70)%N as [-> | ->] by lia.
  all: assert (c = 111 \/ c = 79)%N as [-> | ->] by lia.
  all: split; reflexivity.
Qed.

Lemma strip_foo (w : pystr) : same_letters w (lit "foo") -> strip w = w.
Proof.
  intros (a & b & c & -> & Ha & Hc)%same_letters_foo.
  unfold strip. simpl. rewrite Ha.
  apply (rstrip_no_trailing_space [a; b] c Hc).
Qed.

Lemma upper_foo `{UnicodeData} (w : pystr) :
  same_letters w (lit "foo") -> upper w = lit "FOO".
Proof.
  intros Hw. rewrite (upper_same_letters w (lit "foo")).
  - reflexivity.
  - repeat (constructor; [reflexivity|]). constructor.
  - exact Hw.
Qed.

(** ** Dictionaries *)

Lemma getitem_setitem_eq (k : pystr) (v : value) (d : dict) :
  getitem k (setitem k v d) = Some v.
Proof.
  induction d as [|[k' v'] d IH]; simpl.
  - rewrite decide_True by reflexivity. reflexivity.
  - destruct (decide (k' = k)) as [Hk|Hk]; simpl.
    + rewrite decide_True by exact Hk. reflexivity.
    + rewrite decide_False by exact Hk. exact IH.
Qed.

Lemma getitem_setitem_ne (k k0 : pystr) (v : value) (d : dict) :
  k0 <> k -> getitem k0 (setitem k v d) = getitem k0 d.
Proof.
  intros Hne. induction d as [|[k' v'] d IH]; simpl.
  - rewrite decide_False by congruence. reflexivity.
  - destruct (decide (k' = k)) as [Hk|Hk]; simpl.
    + subst k'. rewrite !decide_False by congruence. reflexivity.
    + rewrite IH. reflexivity.
Qed.

Lemma keys_setitem_present (k : pystr) (v v0 : value) (d : dict) :
  getitem k d = Some v0 -> keys (setitem k v d) = keys d.
Proof.
  unfold keys. induction d as [|[k' v'] d IH]; simpl; [discriminate|].
  destruct (decide (k' = k)); simpl; [reflexivity|].
  intros Hd. rewrite (IH Hd). reflexivity.
Qed.

Lemma id_as_text_id (d : dict) (id : value) :
  getitem (lit "_id") d = Some id ->
  getitem (lit "_id") (id_as_text d) = Some (Str (py_str id)).
Proof.
  intros Hd. unfold id_as_text. rewrite Hd. apply getitem_setitem_eq.
Qed.

Lemma id_as_text_other (d : dict) (k : pystr) :
  k <> lit "_id" -> getitem k (id_as_text d) = getitem k d.
Proof.
  intros Hk. unfold id_as_text.
  destruct (getitem (lit "_id") d); [|reflexivity].
  apply getitem_setitem_ne, Hk.
Qed.

Lemma id_as_text_keys (d : dict) : keys (id_as_text d) = keys d.
Proof.
  unfold id_as_text. destruct (getitem (lit "_id") d) eqn:Hd; [|reflexivity].
  apply (keys_setitem_present _ _ _ _ Hd).
Qed.

Lemma id_as_text_absent (d : dict) :
  contains (lit "_id") d = false -> id_as_text d = d.
Proof.
  unfold contains, id_as_text.
  destruct (getitem (lit "_id") d); [discriminate | reflexivity].
Qed.

(** ** Traces *)

Lemma printed_app (t t' : list event) : printed (t ++ t') = printed t ++ printed t'.
Proof.
  induction t as [|[] t IH]; simpl; rewrite ?IH; reflexivity.
Qed.

Lemma yielded_app (t t' : list event) : yielded (t ++ t') = yielded t ++ yielded t'.
Proof.
  induction t as [|[] t IH]; simpl; rewrite ?IH; reflexivity.
Qed.

Lemma filters_sent_app (t t' : list event) :
  filters_sent (t ++ t') = filters_sent t ++ filters_sent t'.
Proof.
  induction t as [|[] t IH]; simpl; rewrite ?IH; reflexivity.
Qed.

Lemma printed_loop (c : list dict) : printed (loop_events c) = map id_as_text c.
Proof.
  induction c as [|d c IH]; simpl; [reflexivity|]. rewrite IH. reflexivity.
Qed.

Lemma yielded_loop (c : list dict) : yielded (loop_events c) = c.
Proof.
  induction c as [|d c IH]; simpl; [reflexivity|]. rewrite IH. reflexivity.
Qed.

Lemma filters_sent_loop (c : list dict) : filters_sent (loop_events c) = [].
Proof.
  induction c as [|d c IH]; simpl; [reflexivity | exact IH].
Qed.

Lemma find_not_in_loop (c : list dict) (db coll : pystr) (q : dict) :
  Find db coll q ∉ loop_events c.
Proof.
  induction c as [|d c IH]; simpl.
  - apply not_elem_of_nil.
  - rewrite !not_elem_of_cons. repeat split; [discriminate.. | exact IH].
Qed.

Lemma printed_limit_events (l : option Z) : printed (limit_events l) = [].
Proof. unfold limit_events. destruct (limit_applies l); reflexivity. Qed.

Lemma yielded_limit_events (l : option Z) : yielded (limit_events l) = [].
Proof. unfold limit_events. destruct (limit_applies l); reflexivity. Qed.

Lemma filters_sent_limit_events (l : option Z) : filters_sent (limit_events l) = [].
Proof. unfold limit_events. destruct (limit_applies l); reflexivity. Qed.

Lemma find_not_in_limit_events (l : option Z) (db coll : pystr) (q : dict) :
  Find db coll q ∉ limit_events l.
Proof.
  unfold limit_events. destruct (limit_applies l).
  - rewrite not_elem_of_cons. split; [discriminate | apply not_elem_of_nil].
  - apply not_elem_of_nil.
Qed.

(** ** The run of [main] *)

Lemma iterate_run (f : dict -> dict) (c : list dict) :
  iterate c (fun document => emit (Print (f document)))
  = (flat_map (fun d => [Yield d; Print (f d)]) c, Done tt).
Proof.
  induction c as [|d c IH]; simpl; [reflexivity|].
  rewrite IH. reflexivity.
Qed.

Lemma bind_ret_l {A B : Type} (a : A) (f : A -> io B) : bind (ret a) f = f a.
Proof. unfold bind, ret. destruct (f a). reflexivity. Qed.

Lemma uri_truthy (environ : gmap pystr pystr) (uri : pystr) :
  getenv environ "MONGODB_URI" = Some uri -> uri <> [] ->
  truthy (getenv environ "MONGODB_URI") = Some uri.
Proof. intros Hget Hne. apply truthy_Some. auto. Qed.

Lemma reaches_store_Some `{Driver}
    (environ : gmap pystr pystr) (argv : command_line) (uri : pystr) :
  reaches_store environ argv = Some uri
  <-> getenv environ "MONGODB_URI" = Some uri /\ uri <> []
      /\ driver_accepts uri (namespace_of environ argv).
Proof.
  unfold reaches_store, driver_accepts. split.
  - destruct (truthy (getenv environ "MONGODB_URI")) as [u|] eqn:Hu; [|discriminate].
    apply truthy_Some in Hu as [Hget Hne].
    destruct (valid_uri u) eqn:H1; [|discriminate].
    destruct (valid_database_name _) eqn:H2; [|discriminate].
    destruct (valid_collection_name _) eqn:H3; [|discriminate].
    destruct (answers u _ _) eqn:H4; [|discriminate].
    intros [= <-]. auto 10.
  - intros (Hget & Hne & H1 & H2 & H3 & H4).
    rewrite (uri_truthy _ _ Hget Hne), H1, H2, H3, H4. reflexivity.
Qed.

Lemma main_no_uri `{UnicodeData} `{Driver}
    (environ : gmap pystr pystr) (argv : command_line) (st : store) :
  truthy (getenv environ "MONGODB_URI") = None ->
  main environ (Accepted argv) st
  = ([], SystemExit (Message (lit "MONGODB_URI environment variable is not set."))).
Proof.
  intros Huri. unfold main. cbn [parse_args]. rewrite bind_ret_l, Huri. reflexivity.
Qed.

Lemma main_help `{UnicodeData} `{Driver} (environ : gmap pystr pystr) (st : store) :
  main environ AskHelp st = ([PrintHelp], SystemExit (Status 0)).
Proof. reflexivity. Qed.

Lemma main_rejected `{UnicodeData} `{Driver} (environ : gmap pystr pystr) (st : store) :
  main environ Rejected st = ([PrintUsage], SystemExit (Status 2)).
Proof. reflexivity. Qed.

Lemma main_run `{UnicodeData} `{Driver}
    (environ : gmap pystr pystr) (argv : command_line) (st : store) (uri : pystr) :
  reaches_store environ argv = Some uri ->
  let args := namespace_of environ argv in
  let q := query_of (symbol args) in
  main environ (Accepted argv) st
  = (MongoClient uri
       :: limit_events (limit args)
       ++ Find (db_name args) (collection args) q
       :: loop_events (limited (limit args)
                         (find_cursor (st (db_name args) (collection args)) q)),
     Done tt).
Proof.
  intros (Hget & Hne & H1 & H2 & H3 & H4)%reaches_store_Some args q.
  subst args q.
  unfold main. cbn [parse_args]. rewrite bind_ret_l.
  rewrite (uri_truthy _ _ Hget Hne).
  assert (Hq : match truthy (symbol (namespace_of environ argv)) with
               | Some s => setitem (lit "symbol") (Str (upper (strip s))) []
               | None => []
               end = query_of (symbol (namespace_of environ argv))).
  { unfold query_of. destruct (truthy (symbol _)); reflexivity. }
  cbv zeta. rewrite Hq.
  unfold new_MongoClient, get_database, get_collection. rewrite H1, H2, H3.
  unfold limited, limit_events, limit_applies, for_each, fetch.
  destruct (limit (namespace_of environ argv)) as [n|];
    [destruct (int_truthy n && (0 <? n)%Z)|];
    cbv [bind col_find cursor_limit emit ret cur_collection cur_filter cur_limit
         c_database c_name d_client d_name];
    rewrite H4, (iterate_run id_as_text); reflexivity.
Qed.

(** A run that does not get to the documents: it opens at most the
    connection and sets at most the limit, and ends with status 1. *)
Lemma main_stopped `{UnicodeData} `{Driver}
    (environ : gmap pystr pystr) (argv : command_line) (st : store) :
  reaches_store environ argv = None ->
  exit_status (main environ (Accepted argv) st) = 1%Z
  /\ exists (uris : list pystr) (limits : list Z),
       trace (main environ (Accepted argv) st) = map MongoClient uris ++ map Limit limits
       /\ length uris <= 1
       /\ (forall u, u ∈ uris -> truthy (getenv environ "MONGODB_URI") = Some u)
       /\ (forall n, n ∈ limits -> limit_applies (opt_limit argv) = Some n).
Proof.
  unfold reaches_store, main. cbn [parse_args]. rewrite bind_ret_l.
  set (args := namespace_of environ argv).
  assert (Hl : limit args = opt_limit argv) by reflexivity.
  destruct (truthy (getenv environ "MONGODB_URI")) as [uri|] eqn:Huri.
  - unfold new_MongoClient, get_database, get_collection, for_each, fetch.
    destruct (valid_uri uri).
    2:{ intros _. split; [reflexivity|]. exists [], []. split; [reflexivity|]. split; [simpl; lia|].
        split; intros ? []%elem_of_nil. }
    destruct (valid_database_name _).
    2:{ intros _. split; [reflexivity|]. exists [uri], []. split; [reflexivity|]. split; [simpl; lia|].
        split; [intros ? ->%list_elem_of_singleton; reflexivity | intros ? []%elem_of_nil]. }
    destruct (valid_collection_name _).
    2:{ intros _. split; [reflexivity|]. exists [uri], []. split; [reflexivity|]. split; [simpl; lia|].
        split; [intros ? ->%list_elem_of_singleton; reflexivity | intros ? []%elem_of_nil]. }
    cbn [andb]. destruct (answers uri _ _) eqn:Hans; [discriminate|]. intros _.
    rewrite <- Hl. unfold limit_applies.
    destruct (limit args) as [n|]; [destruct (int_truthy n && (0 <? n)%Z)|];
      cbv [bind col_find cursor_limit emit ret cur_collection cur_filter cur_limit
           c_database c_name d_client d_name];
      rewrite Hans; (split; [reflexivity|]).
    + exists [uri], [n]. split; [reflexivity|]. split; [simpl; lia|].
      split; intros ? ->%list_elem_of_singleton; reflexivity.
    + exists [uri], []. split; [reflexivity|]. split; [simpl; lia|].
      split; [intros ? ->%list_elem_of_singleton; reflexivity | intros ? []%elem_of_nil].
    + exists [uri], []. split; [reflexivity|]. split; [simpl; lia|].
      split; [intros ? ->%list_elem_of_singleton; reflexivity | intros ? []%elem_of_nil].
  - intros _. split; [reflexivity|]. exists [], []. split; [reflexivity|]. split; [simpl; lia|].
    split; intros ? []%elem_of_nil.
Qed.

Lemma setup_trace_printed (uris : list pystr) (limits : list Z) :
  printed (map MongoClient uris ++ map Limit limits) = [].
Proof.
  rewrite printed_app. induction uris as [|u uris IH]; simpl; [|exact IH].
  induction limits as [|n limits IH]; simpl; [reflexivity | exact IH].
Qed.

Lemma setup_trace_yielded (uris : list pystr) (limits : list Z) :
  yielded (map MongoClient uris ++ map Limit limits) = [].
Proof.
  rewrite yielded_app. induction uris as [|u uris IH]; simpl; [|exact IH].
  induction limits as [|n limits IH]; simpl; [reflexivity | exact IH].
Qed.

Lemma setup_trace_filters_sent (uris : list pystr) (limits : list Z) :
  filters_sent (map MongoClient uris ++ map Limit limits) = [].
Proof.
  rewrite filters_sent_app. induction uris as [|u uris IH]; simpl; [|exact IH].
  induction limits as [|n limits IH]; simpl; [reflexivity | exact IH].
Qed.

Lemma find_filters_sent (t : list event) (db coll : pystr) (q : dict) :
  Find db coll q ∈ t -> q ∈ filters_sent t.
Proof.
  induction t as [|e t IH]; [intros []%elem_of_nil|].
  rewrite elem_of_cons. intros [<- | Hin].
  - simpl. apply elem_of_cons. left. reflexivity.
  - destruct e; simpl; auto. apply elem_of_cons. right. auto.
Qed.

Lemma main_stopped_printed `{UnicodeData} `{Driver}
    (environ : gmap pystr pystr) (argv : command_line) (st : store) :
  reaches_store environ argv = None ->
  printed (trace (main environ (Accepted argv) st)) = [].
Proof.
  intros (_ & uris & limits & -> & _)%(main_stopped _ _ st).
  apply setup_trace_printed.
Qed.

Lemma main_stopped_yielded `{UnicodeData} `{Driver}
    (environ : gmap pystr pystr) (argv : command_line) (st : store) :
  reaches_store environ argv = None ->
  yielded (trace (main environ (Accepted argv) st)) = [].
Proof.
  intros (_ & uris & limits & -> & _)%(main_stopped _ _ st).
  apply setup_trace_yielded.
Qed.

Lemma main_stopped_filters_sent `{UnicodeData} `{Driver}
    (environ : gmap pystr pystr) (argv : command_line) (st : store) :
  reaches_store environ argv = None ->
  filters_sent (trace (main environ (Accepted argv) st)) = [].
Proof.
  intros (_ & uris & limits & -> & _)%(main_stopped _ _ st).
  apply setup_trace_filters_sent.
Qed.

Lemma filters_sent_run `{UnicodeData} `{Driver}
    (environ : gmap pystr pystr) (argv : command_line) (st : store) (uri : pystr) :
  reaches_store environ argv = Some uri ->
  filters_sent (trace (main environ (Accepted argv) st)) = [query_of (opt_symbol argv)].
Proof.
  intros Hok. rewrite (main_run _ _ _ uri Hok). unfold trace. simpl.
  rewrite filters_sent_app, filters_sent_limit_events. simpl.
  rewrite filters_sent_loop. reflexivity.
Qed.

Lemma sends_filter_run `{UnicodeData} `{Driver}
    (environ : gmap pystr pystr) (argv : command_line) (st : store) :
  sends_filter environ argv (trace (main environ (Accepted argv) st))
    (query_of (opt_symbol argv)).
Proof.
  split.
  - destruct (reaches_store environ argv) as [uri|] eqn:Hok.
    + rewrite (filters_sent_run _ _ _ uri Hok).
      intros q' Hq'%list_elem_of_singleton. exact Hq'.
    + rewrite (main_stopped_filters_sent _ _ _ Hok). intros q' []%elem_of_nil.
  - intros uri Hget Hne Hacc. apply (filters_sent_run _ _ _ uri).
    apply reaches_store_Some. auto.
Qed.

Lemma find_in_main `{UnicodeData} `{Driver}
    (environ : gmap pystr pystr) (argv : command_line) (st : store)
    (db coll : pystr) (q : dict) :
  Find db coll q ∈ trace (main environ (Accepted argv) st) ->
  (exists uri, reaches_store environ argv = Some uri)
  /\ db = db_name (namespace_of environ argv)
  /\ coll = collection (namespace_of environ argv)
  /\ q = query_of (opt_symbol argv).
Proof.
  destruct (reaches_store environ argv) as [uri|] eqn:Hok.
  - rewrite (main_run _ _ _ uri Hok). unfold trace. simpl.
    rewrite elem_of_cons, elem_of_app, elem_of_cons.
    intros [Hc | [Hin | [Hf | Hin]]].
    + discriminate.
    + apply find_not_in_limit_events in Hin. contradiction.
    + injection Hf as -> -> ->. eauto.
    + apply find_not_in_loop in Hin. contradiction.
  - intros Hin%find_filters_sent.
    rewrite (main_stopped_filters_sent _ _ _ Hok) in Hin.
    apply elem_of_nil in Hin. contradiction.
Qed.

Lemma yielded_run `{UnicodeData} `{Driver}
    (environ : gmap pystr pystr) (argv : command_line) (st : store) (uri : pystr) :
  reaches_store environ argv = Some uri ->
  yielded (trace (main environ (Accepted argv) st))
  = limited (opt_limit argv)
      (find_cursor (st (db_name (namespace_of environ argv))
                       (collection (namespace_of environ argv)))
         (query_of (opt_symbol argv))).
Proof.
  intros Hok. rewrite (main_run _ _ _ uri Hok). unfold trace. simpl.
  rewrite yielded_app, yielded_limit_events. simpl. rewrite yielded_loop. reflexivity.
Qed.

Lemma printed_run `{UnicodeData} `{Driver}
    (environ : gmap pystr pystr) (argv : command_line) (st : store) :
  printed (trace (main environ (Accepted argv) st))
  = map id_as_text (yielded (trace (main environ (Accepted argv) st))).
Proof.
  destruct (reaches_store environ argv) as [uri|] eqn:Hok.
  - rewrite (main_run _ _ _ uri Hok). unfold trace. simpl.
    rewrite printed_app, yielded_app, printed_limit_events, yielded_limit_events.
    simpl. rewrite printed_loop, yielded_loop. reflexivity.
  - rewrite (main_stopped_printed _ _ _ Hok), (main_stopped_yielded _ _ _ Hok).
    reflexivity.
Qed.

Lemma limit_applies_positive (n : Z) : (0 < n)%Z -> limit_applies (Some n) = Some n.
Proof.
  intros Hn. unfold limit_applies, int_truthy.
  destruct (Z.eqb_spec n 0); [lia|]. destruct (Z.ltb_spec 0 n); [reflexivity | lia].
Qed.

Lemma limit_applies_nonpositive (n : Z) : (n <= 0)%Z -> limit_applies (Some n) = None.
Proof.
  intros Hn. unfold limit_applies, int_truthy.
  destruct (Z.ltb_spec 0 n); [lia|]. rewrite andb_false_r. reflexivity.
Qed.

Lemma limit_cursor_positive (n : Z) (c : list dict) :
  (0 < n)%Z -> limit_cursor n c = take (Z.to_nat n) c.
Proof.
  intros Hn. unfold limit_cursor. destruct (Z.eqb_spec n 0); [lia|].
  rewrite Z.abs_eq by lia. reflexivity.
Qed.

Lemma limited_nil (l : option Z) : limited l [] = [].
Proof.
  unfold limited, limit_cursor. destruct (limit_applies l) as [n|]; [|reflexivity].
  destruct (n =? 0)%Z; [reflexivity | apply take_nil].
Qed.

Lemma Forall2_map_same {A B : Type} (R : A -> B -> Prop) (f : A -> B) (l : list A) :
  (forall x, R x (f x)) -> Forall2 R l (map f l).
Proof.
  intros HR. induction l as [|x l IH]; simpl; constructor; auto.
Qed.

Lemma find_sent `{UnicodeData} `{Driver}
    (environ : gmap pystr pystr) (argv : command_line) (st : store) (uri : pystr) :
  reaches_store environ argv = Some uri ->
  Find (db_name (namespace_of environ argv)) (collection (namespace_of environ argv))
    (query_of (opt_symbol argv))
  ∈ trace (main environ (Accepted argv) st).
Proof.
  intros Hok. rewrite (main_run _ _ _ uri Hok). unfold trace. simpl.
  apply elem_of_cons. right. apply elem_of_app. right.
  apply elem_of_cons. left. reflexivity.
Qed.

Lemma limited_spec (l : option Z) (c : list dict) :
  limited l c
  = match l with
    | Some n => if (0 <? n)%Z then take (Z.to_nat n) c else c
    | None => c
    end.
Proof.
  destruct l as [n|]; [|reflexivity]. unfold limited.
  destruct (Z.ltb_spec 0 n).
  - rewrite limit_applies_positive by assumption. apply limit_cursor_positive. assumption.
  - rewrite limit_applies_nonpositive by assumption. reflexivity.
Qed.

(** ** Runs on the sample store *)

Example run_symbol_padded :
  printed (trace (@main ascii_only online uri_only
                    (Accepted (set_symbol (Some (lit " aapl ")) no_options)) sample_store))
  = [[(lit "_id", Str (lit "654f1a0000000000000000ff"));
      (lit "symbol", Str (lit "AAPL")); (lit "price", Int 1)]].
Proof. reflexivity. Qed.

Example run_limit_two :
  printed (trace (@main ascii_only online uri_only (Accepted limit_two) sample_store))
  = [[(lit "_id", Str (lit "654f1a0000000000000000ff"));
      (lit "symbol", Str (lit "AAPL")); (lit "price", Int 1)];
     msft].
Proof. reflexivity. Qed.

Example run_blank_symbol :
  printed (trace (@main ascii_only online uri_only (Accepted blank_symbol) sample_store))
  = [[(lit "_id", Str (lit "-3")); (lit "symbol", Str [])]].
Proof. reflexivity. Qed.

Example run_empty_symbol :
  length (printed (trace (@main ascii_only online uri_only (Accepted empty_symbol)
                            sample_store))) = 4.
Proof. reflexivity. Qed.

Example run_other_database :
  trace (@main ascii_only online uri_and_db (Accepted no_options) sample_store)
  = [MongoClient (lit "mongodb://localhost");
     Find (lit "Paper") (lit "HistoricalData") []].
Proof. reflexivity. Qed.

Example run_float_id :
  printed (trace (@main ascii_only online uri_only (Accepted paper_archive)
                    two_collections))
  = [msft;
     [(lit "_id", Str (lit "2.5")); (lit "symbol", Str (lit "GOOG"));
      (lit "price", Other (lit "float") (lit "101.25"))]].
Proof. reflexivity. Qed.

Example run_offline :
  @main ascii_only offline uri_only (Accepted limit_two) sample_store
  = ([MongoClient (lit "mongodb://localhost"); Limit 2], Raised NoAnswer).
Proof. reflexivity. Qed.

Example run_empty_db_name :
  @main ascii_only online uri_only (Accepted empty_db_name) sample_store
  = ([MongoClient (lit "mongodb://localhost")], Raised InvalidName).
Proof. reflexivity. Qed.

Example run_usage_error :
  @main ascii_only online uri_only Rejected sample_store
  = ([PrintUsage], SystemExit (Status 2)).
Proof. reflexivity. Qed.

(** * The claims *)

(** C1, as stated, fails on the invocation [--help] with [MONGODB_URI]
    unset: the parser serves the help text and ends the process with
    status 0 before the variable is read. *)
Lemma help_without_uri_exits_zero :
  getenv ∅ "MONGODB_URI" = None
  /\ exit_status (@main ascii_only online ∅ AskHelp sample_store) = 0%Z.
Proof. split; reflexivity. Qed.

(** C1, amended.  If [MONGODB_URI] is unset or empty and the command line
    does not ask for the help text, the program ends with a non-zero exit
    status and a message: status 1 and the message that the variable is
    not set on a command line the parser accepts, status 2 and the usage
    message on one it rejects.  In every case, the help text included,
    it performs no network I/O (no driver call at all: no connection, no
    query) and prints no document. *)
Theorem missing_uri_exits `{UnicodeData} `{Driver}
    (environ : gmap pystr pystr) (args : arguments) (st : store) :
  getenv environ "MONGODB_URI" = None \/ getenv environ "MONGODB_URI" = Some [] ->
  (args <> AskHelp ->
     exit_status (main environ args st) <> 0%Z /\ stderr (main environ args st) <> [])
  /\ (forall argv : command_line, args = Accepted argv ->
        exit_status (main environ args st) = 1%Z
        /\ stderr (main environ args st)
           = [Text (lit "MONGODB_URI environment variable is not set.")])
  /\ (args = Rejected ->
        exit_status (main environ args st) = 2%Z
        /\ stderr (main environ args st) = [UsageMessage])
  /\ network_io (trace (main environ args st)) = []
  /\ printed (trace (main environ args st)) = [].
Proof.
  intros Huri%truthy_None. destruct args as [| |argv].
  - split; [intros Hne; contradiction|]. split; [intros argv [=]|].
    split; [intros [=]|]. split; reflexivity.
  - split; [intros _; split; discriminate|]. split; [intros argv [=]|].
    split; [intros _; split; reflexivity|]. split; reflexivity.
  - rewrite (main_no_uri _ _ _ Huri).
    split; [intros _; split; discriminate|].
    split; [intros argv' _; split; reflexivity|].
    split; [intros [=]|]. split; reflexivity.
Qed.

Lemma missing_uri_exits_witness :
  (exit_status (@main ascii_only online ∅ (Accepted limit_two) sample_store) = 1%Z
   /\ stderr (@main ascii_only online ∅ (Accepted limit_two) sample_store)
      = [Text (lit "MONGODB_URI environment variable is not set.")])
  /\ network_io (trace (@main ascii_only online ∅ (Accepted limit_two) sample_store)) = []
  /\ printed (trace (@main ascii_only online ∅ (Accepted limit_two) sample_store)) = [].
Proof.
  destruct (@missing_uri_exits ascii_only online ∅ (Accepted limit_two) sample_store)
    as (_ & Hacc & _ & Hio & Hout); [left; reflexivity|].
  split; [exact (Hacc limit_two eq_refl) | split; assumption].
Defined.

(** C2, as stated, fails on the invocation [--symbol ""]: the value is
    supplied, but the filter sent is empty, not [{"symbol": ""}]. *)
Lemma symbol_filter_empty_value :
  opt_symbol empty_symbol = Some []
  /\ filters_sent (trace (@main ascii_only online uri_only (Accepted empty_symbol)
                            sample_store)) = [[]]
  /\ ~ @sends_filter online uri_only empty_symbol
        (trace (@main ascii_only online uri_only (Accepted empty_symbol) sample_store))
        [(lit "symbol", Str (@upper ascii_only (strip [])))].
Proof.
  split; [reflexivity|]. split; [reflexivity|].
  intros [Hall _]. specialize (Hall []).
  discriminate Hall. apply list_elem_of_singleton. reflexivity.
Qed.

(** C2, amended.  For every invocation where [--symbol] is supplied with
    a non-empty value [s], the filter sent to the store is
    [{"symbol": upper(strip(s))}]; in particular, when [s] is "foo" in
    any casing with any surrounding whitespace, the filter is
    [{"symbol": "FOO"}]. *)
Theorem symbol_filter_normalized `{UnicodeData} `{Driver}
    (environ : gmap pystr pystr) (argv : command_line) (st : store) (s : pystr) :
  opt_symbol argv = Some s -> s <> [] ->
  sends_filter environ argv (trace (main environ (Accepted argv) st))
    [(lit "symbol", Str (upper (strip s)))]
  /\ (forall ws1 w ws2 : pystr,
        s = ws1 ++ w ++ ws2 -> all_space ws1 -> all_space ws2 ->
        same_letters w (lit "foo") ->
        sends_filter environ argv (trace (main environ (Accepted argv) st))
          [(lit "symbol", Str (lit "FOO"))]).
Proof.
  intros Hs Hs_ne.
  assert (Hq : query_of (opt_symbol argv) = [(lit "symbol", Str (upper (strip s)))]).
  { rewrite Hs. unfold query_of. destruct s; [contradiction | reflexivity]. }
  pose proof (sends_filter_run environ argv st) as Hrun. rewrite Hq in Hrun.
  split; [exact Hrun|].
  intros ws1 w ws2 Heq H1 H2 Hw.
  replace (lit "FOO") with (upper (strip s)); [exact Hrun|].
  rewrite Heq, (strip_padded _ _ _ H1 H2), (strip_foo _ Hw). apply upper_foo, Hw.
Qed.

Lemma symbol_filter_normalized_witness :
  @sends_filter online uri_only padded_foo
    (trace (@main ascii_only online uri_only (Accepted padded_foo) sample_store))
    [(lit "symbol", Str (lit "FOO"))]
  /\ filters_sent (trace (@main ascii_only online uri_only (Accepted padded_foo)
                            sample_store))
     = [[(lit "symbol", Str (lit "FOO"))]].
Proof.
  destruct (@symbol_filter_normalized ascii_only online uri_only padded_foo sample_store
              (lit " fOo ")) as [_ Hfoo]; [reflexivity | discriminate |].
  specialize (Hfoo (lit " ") (lit "fOo") (lit " ") eq_refl eq_refl eq_refl eq_refl).
  split; [exact Hfoo|].
  apply (proj2 Hfoo (lit "mongodb://localhost")); [reflexivity | discriminate |].
  repeat split.
Defined.

(** C6. For every invocation where [--symbol] is not supplied, the
    filter sent to the store is the empty mapping, and the empty mapping
    matches every document: the query yields the whole collection. *)
Theorem no_symbol_empty_filter `{UnicodeData} `{Driver}
    (environ : gmap pystr pystr) (argv : command_line) (st : store) :
  opt_symbol argv = None ->
  sends_filter environ argv (trace (main environ (Accepted argv) st)) []
  /\ (forall document : dict, matches [] document = true)
  /\ (forall documents : list dict, find_cursor documents [] = documents).
Proof.
  intros Hs.
  pose proof (sends_filter_run environ argv st) as Hrun. rewrite Hs in Hrun.
  split; [exact Hrun|]. split; [reflexivity|].
  intros documents. unfold find_cursor.
  induction documents as [|d documents IH]; simpl; [reflexivity|].
  rewrite IH. reflexivity.
Qed.

Lemma no_symbol_empty_filter_witness :
  filters_sent (trace (@main ascii_only online uri_only (Accepted limit_two)
                         sample_store)) = [[]]
  /\ yielded (trace (@main ascii_only online uri_only (Accepted limit_minus_one)
                       sample_store))
     = [aapl; msft; foo_doc; blank_doc].
Proof.
  destruct (@no_symbol_empty_filter ascii_only online uri_only limit_two sample_store)
    as ([_ Hsent] & _ & Hall); [reflexivity|].
  split.
  - apply (Hsent (lit "mongodb://localhost")); [reflexivity | discriminate |].
    repeat split.
  - rewrite <- (Hall [aapl; msft; foo_doc; blank_doc]). reflexivity.
Defined.

(** C10. [--symbol ""] is taken as if the option were not passed, and
    the filter stays empty; a non-empty value made of whitespace only
    gives the filter [{"symbol": ""}]. *)
Theorem empty_and_blank_symbol `{UnicodeData} `{Driver}
    (environ : gmap pystr pystr) (argv : command_line) (st : store) :
  (opt_symbol argv = Some [] ->
     sends_filter environ argv (trace (main environ (Accepted argv) st)) []
     /\ main environ (Accepted argv) st
        = main environ (Accepted (set_symbol None argv)) st)
  /\ (forall s : pystr,
        opt_symbol argv = Some s -> s <> [] -> all_space s ->
        sends_filter environ argv (trace (main environ (Accepted argv) st))
          [(lit "symbol", Str [])]).
Proof.
  pose proof (sends_filter_run environ argv st) as Hrun. split.
  - intros Hs. rewrite Hs in Hrun. split; [exact Hrun|].
    unfold main. cbn [parse_args]. rewrite !bind_ret_l.
    unfold namespace_of. simpl. rewrite Hs. reflexivity.
  - intros s Hs Hs_ne Hsp. rewrite Hs in Hrun.
    unfold query_of in Hrun. destruct s as [|c s]; [contradiction|].
    simpl truthy in Hrun. cbv iota in Hrun.
    rewrite (strip_all_space _ Hsp) in Hrun. exact Hrun.
Qed.

Lemma empty_and_blank_symbol_witness :
  (filters_sent (trace (@main ascii_only online uri_only (Accepted empty_symbol)
                          sample_store)) = [[]]
   /\ @main ascii_only online uri_only (Accepted empty_symbol) sample_store
      = @main ascii_only online uri_only (Accepted (set_symbol None empty_symbol))
          sample_store)
  /\ filters_sent (trace (@main ascii_only online uri_only (Accepted blank_symbol)
                            sample_store))
     = [[(lit "symbol", Str [])]].
Proof.
  destruct (@empty_and_blank_symbol ascii_only online uri_only empty_symbol sample_store)
    as [Hempty _].
  destruct (@empty_and_blank_symbol ascii_only online uri_only blank_symbol sample_store)
    as [_ Hblank].
  destruct (Hempty eq_refl) as [[_ Hsent] Hsame].
  destruct (Hblank (lit "  ") eq_refl ltac:(discriminate) eq_refl) as [_ Hsent'].
  split; [split|].
  - apply (Hsent (lit "mongodb://localhost")); [reflexivity | discriminate |].
    repeat split.
  - exact Hsame.
  - apply (Hsent' (lit "mongodb://localhost")); [reflexivity | discriminate |].
    repeat split.
Defined.

(** C7. Configuration resolution.  Without [--db-name] the database name
    is the value of [MONGODB_DB] when that is set and non-empty, else
    "TradingApp"; without [--collection] the collection name is
    "HistoricalData"; [--symbol] and [--limit] are unset unless passed.
    The query goes to the database and collection so resolved. *)
Theorem configuration_defaults `{UnicodeData} `{Driver}
    (environ : gmap pystr pystr) (argv : command_line) (st : store) :
  (opt_db_name argv = None ->
     (forall v : pystr, getenv environ "MONGODB_DB" = Some v -> v <> [] ->
        db_name (namespace_of environ argv) = v)
     /\ (getenv environ "MONGODB_DB" = None \/ getenv environ "MONGODB_DB" = Some [] ->
        db_name (namespace_of environ argv) = lit "TradingApp"))
  /\ (opt_collection argv = None ->
        collection (namespace_of environ argv) = lit "HistoricalData")
  /\ (opt_symbol argv = None -> symbol (namespace_of environ argv) = None)
  /\ (opt_limit argv = None -> limit (namespace_of environ argv) = None)
  /\ parse_args environ (Accepted argv) = ret (namespace_of environ argv)
  /\ (forall db coll q, Find db coll q ∈ trace (main environ (Accepted argv) st) ->
        db = db_name (namespace_of environ argv)
        /\ coll = collection (namespace_of environ argv)).
Proof.
  split; [|split; [|split; [|split; [|split]]]].
  - intros Hdb. unfold namespace_of, db_name. rewrite Hdb. simpl. unfold py_or. split.
    + intros v Hv Hne. rewrite (proj2 (truthy_Some _ v)) by auto. reflexivity.
    + intros Hv%truthy_None. rewrite Hv. reflexivity.
  - intros Hcoll. unfold namespace_of, collection. rewrite Hcoll. reflexivity.
  - intros Hs. exact Hs.
  - intros Hl. exact Hl.
  - reflexivity.
  - intros db coll q (_ & -> & -> & _)%find_in_main. split; reflexivity.
Qed.

Lemma configuration_defaults_witness :
  db_name (namespace_of uri_and_db no_options) = lit "Paper"
  /\ db_name (namespace_of uri_only no_options) = lit "TradingApp"
  /\ collection (namespace_of uri_only no_options) = lit "HistoricalData"
  /\ symbol (namespace_of uri_only no_options) = None
  /\ limit (namespace_of uri_only no_options) = None.
Proof.
  destruct (@configuration_defaults ascii_only online uri_and_db no_options sample_store)
    as (Hdb & _).
  destruct (@configuration_defaults ascii_only online uri_only no_options sample_store)
    as (Hdb' & Hcoll & Hsym & Hlim & _).
  split; [|split; [|split; [|split]]].
  - apply (proj1 (Hdb eq_refl) (lit "Paper")); [reflexivity | discriminate].
  - apply (proj2 (Hdb' eq_refl)). left. reflexivity.
  - apply Hcoll. reflexivity.
  - apply Hsym. reflexivity.
  - apply Hlim. reflexivity.
Defined.

(** C3. For every invocation where [--limit] is supplied with a positive
    integer [n], at most [n] documents are printed: one line per
    document of the result sequence, which is the first [n] documents
    that match the query. *)
Theorem positive_limit_truncates `{UnicodeData} `{Driver}
    (environ : gmap pystr pystr) (argv : command_line) (st : store) (n : Z) :
  opt_limit argv = Some n -> (0 < n)%Z ->
  (Z.of_nat (length (printed (trace (main environ (Accepted argv) st)))) <= n)%Z
  /\ length (printed (trace (main environ (Accepted argv) st)))
     = length (yielded (trace (main environ (Accepted argv) st)))
  /\ (forall db coll q, Find db coll q ∈ trace (main environ (Accepted argv) st) ->
        yielded (trace (main environ (Accepted argv) st))
        = take (Z.to_nat n) (find_cursor (st db coll) q)).
Proof.
  intros Hl Hn.
  assert (Hy : forall db coll q,
             Find db coll q ∈ trace (main environ (Accepted argv) st) ->
             yielded (trace (main environ (Accepted argv) st))
             = take (Z.to_nat n) (find_cursor (st db coll) q)).
  { intros db coll q ([uri Hok] & -> & -> & ->)%find_in_main.
    rewrite (yielded_run _ _ _ uri Hok), Hl. unfold limited.
    rewrite (limit_applies_positive _ Hn). apply limit_cursor_positive, Hn. }
  rewrite printed_run, length_map. split; [|split; [reflexivity | exact Hy]].
  destruct (reaches_store environ argv) as [uri|] eqn:Hok.
  - rewrite (Hy _ _ _ (find_sent _ _ st _ Hok)), length_take. lia.
  - rewrite (main_stopped_yielded _ _ _ Hok). simpl. lia.
Qed.

Lemma positive_limit_truncates_witness :
  (Z.of_nat (length (printed (trace (@main ascii_only online uri_only (Accepted limit_two)
                                       sample_store))))
   <= 2)%Z
  /\ length (printed (trace (@main ascii_only online uri_only (Accepted limit_two)
                               sample_store)))
     = length (yielded (trace (@main ascii_only online uri_only (Accepted limit_two)
                                 sample_store)))
  /\ (forall db coll q,
        Find db coll q
        ∈ trace (@main ascii_only online uri_only (Accepted limit_two) sample_store) ->
        yielded (trace (@main ascii_only online uri_only (Accepted limit_two)
                          sample_store))
        = take (Z.to_nat 2) (find_cursor (sample_store db coll) q)).
Proof.
  apply (@positive_limit_truncates ascii_only online uri_only limit_two sample_store 2%Z);
    [reflexivity | lia].
Defined.

(** C4. For every invocation where [--limit] is supplied with 0 or a
    negative integer, the run is the run of the same invocation without
    [--limit]: the limit is not passed on, the result sequence is every
    matching document, and each is printed on a line.  When
    [MONGODB_URI] is set and non-empty and no call of the driver raises,
    the query is sent and all the documents that match it are printed. *)
Theorem nonpositive_limit_ignored `{UnicodeData} `{Driver}
    (environ : gmap pystr pystr) (argv : command_line) (st : store) (n : Z) :
  opt_limit argv = Some n -> (n <= 0)%Z ->
  main environ (Accepted argv) st = main environ (Accepted (set_limit None argv)) st
  /\ length (printed (trace (main environ (Accepted argv) st)))
     = length (yielded (trace (main environ (Accepted argv) st)))
  /\ (forall db coll q, Find db coll q ∈ trace (main environ (Accepted argv) st) ->
        yielded (trace (main environ (Accepted argv) st)) = find_cursor (st db coll) q)
  /\ (forall uri : pystr,
        getenv environ "MONGODB_URI" = Some uri -> uri <> [] ->
        driver_accepts uri (namespace_of environ argv) ->
        exists q : dict,
          Find (db_name (namespace_of environ argv))
            (collection (namespace_of environ argv)) q
          ∈ trace (main environ (Accepted argv) st)
          /\ yielded (trace (main environ (Accepted argv) st))
             = find_cursor (st (db_name (namespace_of environ argv))
                               (collection (namespace_of environ argv))) q
          /\ length (printed (trace (main environ (Accepted argv) st)))
             = length (find_cursor (st (db_name (namespace_of environ argv))
                                       (collection (namespace_of environ argv))) q)).
Proof.
  intros Hl Hn.
  assert (Hy : forall db coll q,
             Find db coll q ∈ trace (main environ (Accepted argv) st) ->
             yielded (trace (main environ (Accepted argv) st))
             = find_cursor (st db coll) q).
  { intros db coll q ([uri Hok] & -> & -> & ->)%find_in_main.
    rewrite (yielded_run _ _ _ uri Hok), Hl. unfold limited.
    rewrite (limit_applies_nonpositive _ Hn). reflexivity. }
  split; [|split; [|split; [exact Hy|]]].
  - unfold main. cbn [parse_args]. rewrite !bind_ret_l.
    unfold namespace_of. simpl. rewrite Hl.
    pose proof (limit_applies_nonpositive _ Hn) as Hla. unfold limit_applies in Hla.
    destruct (int_truthy n && (0 <? n)%Z); [discriminate | reflexivity].
  - rewrite printed_run, length_map. reflexivity.
  - intros uri Hget Hne Hacc.
    assert (Hok : reaches_store environ argv = Some uri)
      by (apply reaches_store_Some; auto).
    pose proof (find_sent _ _ st _ Hok) as Hfind.
    exists (query_of (opt_symbol argv)). split; [exact Hfind|].
    rewrite printed_run, length_map, (Hy _ _ _ Hfind). split; reflexivity.
Qed.

Lemma nonpositive_limit_ignored_witness :
  @main ascii_only online uri_only (Accepted limit_minus_one) sample_store
  = @main ascii_only online uri_only (Accepted (set_limit None limit_minus_one))
      sample_store
  /\ exists q : dict,
       Find (lit "TradingApp") (lit "HistoricalData") q
       ∈ trace (@main ascii_only online uri_only (Accepted limit_minus_one) sample_store)
       /\ yielded (trace (@main ascii_only online uri_only (Accepted limit_minus_one)
                            sample_store))
          = find_cursor (sample_store (lit "TradingApp") (lit "HistoricalData")) q
       /\ length (printed (trace (@main ascii_only online uri_only
                                    (Accepted limit_minus_one) sample_store)))
          = length (find_cursor (sample_store (lit "TradingApp") (lit "HistoricalData"))
                      q).
Proof.
  destruct (@nonpositive_limit_ignored ascii_only online uri_only limit_minus_one
              sample_store (-1)%Z) as (Hsame & _ & _ & Hall); [reflexivity | lia |].
  split; [exact Hsame|].
  apply (Hall (lit "mongodb://localhost")); [reflexivity | discriminate |].
  repeat split.
Defined.

(** C5. Every document of the result sequence is printed, in order, and
    where the document retrieved has an [_id] field with value [id], the
    document printed has [str(id)], a text string, in that field.  When
    [MONGODB_URI] is set and non-empty and no call of the driver raises,
    the result sequence is what the query of the run returns: the
    documents of the collection that match its filter, cut to the first
    [n] when [--limit n] is given with [n > 0]. *)
Theorem id_emitted_as_text `{UnicodeData} `{Driver}
    (environ : gmap pystr pystr) (argv : command_line) (st : store) :
  Forall2
    (fun retrieved emitted : dict =>
       forall id : value,
         getitem (lit "_id") retrieved = Some id ->
         getitem (lit "_id") emitted = Some (Str (py_str id)))
    (yielded (trace (main environ (Accepted argv) st)))
    (printed (trace (main environ (Accepted argv) st)))
  /\ (forall uri : pystr,
        getenv environ "MONGODB_URI" = Some uri -> uri <> [] ->
        driver_accepts uri (namespace_of environ argv) ->
        exists q : dict,
          Find (db_name (namespace_of environ argv))
            (collection (namespace_of environ argv)) q
          ∈ trace (main environ (Accepted argv) st)
          /\ yielded (trace (main environ (Accepted argv) st))
             = match opt_limit argv with
               | Some n =>
                   if (0 <? n)%Z
                   then take (Z.to_nat n)
                          (find_cursor (st (db_name (namespace_of environ argv))
                                           (collection (namespace_of environ argv))) q)
                   else find_cursor (st (db_name (namespace_of environ argv))
                                        (collection (namespace_of environ argv))) q
               | None =>
                   find_cursor (st (db_name (namespace_of environ argv))
                                   (collection (namespace_of environ argv))) q
               end).
Proof.
  split.
  - rewrite printed_run. apply Forall2_map_same.
    intros d id Hd. apply id_as_text_id, Hd.
  - intros uri Hget Hne Hacc.
    assert (Hok : reaches_store environ argv = Some uri)
      by (apply reaches_store_Some; auto).
    exists (query_of (opt_symbol argv)). split; [apply (find_sent _ _ st _ Hok)|].
    rewrite (yielded_run _ _ _ uri Hok). apply limited_spec.
Qed.

Lemma id_emitted_as_text_witness :
  Forall2
    (fun retrieved emitted : dict =>
       forall id : value,
         getitem (lit "_id") retrieved = Some id ->
         getitem (lit "_id") emitted = Some (Str (py_str id)))
    [msft; float_doc]
    (printed (trace (@main ascii_only online uri_only (Accepted paper_archive)
                       two_collections)))
  /\ yielded (trace (@main ascii_only online uri_only (Accepted limit_two) sample_store))
     = [aapl; msft].
Proof.
  destruct (@id_emitted_as_text ascii_only online uri_only paper_archive two_collections)
    as [Htext _].
  destruct (@id_emitted_as_text ascii_only online uri_only limit_two sample_store)
    as [_ Hseq].
  split; [exact Htext|].
  destruct (Hseq (lit "mongodb://localhost")) as (q & Hq & Hy);
    [reflexivity | discriminate | repeat split |].
  apply find_in_main in Hq as (_ & _ & _ & ->). exact Hy.
Defined.

(** C8. For every invocation with [MONGODB_URI] set whose query yields
    no matching document (as on an empty store), no document is printed
    and the exit status is 0. *)
Theorem no_match_no_output `{UnicodeData} `{Driver}
    (environ : gmap pystr pystr) (argv : command_line) (st : store)
    (uri db coll : pystr) (q : dict) :
  getenv environ "MONGODB_URI" = Some uri ->
  Find db coll q ∈ trace (main environ (Accepted argv) st) ->
  find_cursor (st db coll) q = [] ->
  printed (trace (main environ (Accepted argv) st)) = []
  /\ exit_status (main environ (Accepted argv) st) = 0%Z.
Proof.
  intros _ Hin Hempty.
  destruct (find_in_main _ _ _ _ _ _ Hin) as ([uri' Hok] & -> & -> & ->).
  split.
  - rewrite printed_run, (yielded_run _ _ _ uri' Hok), Hempty, limited_nil.
    reflexivity.
  - rewrite (main_run _ _ _ uri' Hok). reflexivity.
Qed.

Lemma no_match_no_output_witness :
  (printed (trace (@main ascii_only online uri_only (Accepted limit_two) empty_store))
   = []
   /\ exit_status (@main ascii_only online uri_only (Accepted limit_two) empty_store)
      = 0%Z)
  /\ (printed (trace (@main ascii_only online uri_only (Accepted unknown_symbol)
                        sample_store)) = []
      /\ exit_status (@main ascii_only online uri_only (Accepted unknown_symbol)
                        sample_store) = 0%Z).
Proof.
  split.
  - apply (@no_match_no_output ascii_only online uri_only limit_two empty_store
             (lit "mongodb://localhost") (lit "TradingApp") (lit "HistoricalData") []);
      [reflexivity | | reflexivity].
    apply (@find_sent ascii_only online uri_only limit_two empty_store
             (lit "mongodb://localhost")). reflexivity.
  - apply (@no_match_no_output ascii_only online uri_only unknown_symbol sample_store
             (lit "mongodb://localhost") (lit "TradingApp") (lit "HistoricalData")
             [(lit "symbol", Str (lit "ZZZ"))]);
      [reflexivity | | reflexivity].
    apply (@find_sent ascii_only online uri_only unknown_symbol sample_store
             (lit "mongodb://localhost")). reflexivity.
Defined.

(** C9. Every document of the result sequence is printed with the same
    fields in the same order, and every field other than [_id] has the
    value retrieved from the store; a document without [_id] is printed
    as retrieved. *)
Theorem other_fields_unchanged `{UnicodeData} `{Driver}
    (environ : gmap pystr pystr) (argv : command_line) (st : store) :
  Forall2
    (fun retrieved emitted : dict =>
       keys emitted = keys retrieved
       /\ (forall k : pystr, k <> lit "_id" -> getitem k emitted = getitem k retrieved)
       /\ (contains (lit "_id") retrieved = false -> emitted = retrieved))
    (yielded (trace (main environ (Accepted argv) st)))
    (printed (trace (main environ (Accepted argv) st))).
Proof.
  rewrite printed_run. apply Forall2_map_same.
  intros d. split; [apply id_as_text_keys|].
  split; [intros k Hk; apply id_as_text_other, Hk | apply id_as_text_absent].
Qed.

(** * Further properties of [main] *)

Lemma setitem_same (k : pystr) (v : value) (d : dict) :
  getitem k d = Some v -> setitem k v d = d.
Proof.
  induction d as [|[k' v'] d IH]; simpl; [discriminate|].
  destruct (decide (k' = k)).
  - intros [= ->]. reflexivity.
  - intros Hd. rewrite (IH Hd). reflexivity.
Qed.

Lemma limited_prefix (l : option Z) (c : list dict) :
  exists rest, c = limited l c ++ rest.
Proof.
  unfold limited, limit_cursor.
  destruct (limit_applies l) as [n|]; [destruct (n =? 0)%Z|].
  - exists []. rewrite app_nil_r. reflexivity.
  - exists (drop (Z.to_nat (Z.abs n)) c). rewrite take_drop. reflexivity.
  - exists []. rewrite app_nil_r. reflexivity.
Qed.

Lemma find_cursor_elem (documents : list dict) (q d : dict) :
  d ∈ find_cursor documents q <-> d ∈ documents /\ matches q d = true.
Proof.
  unfold find_cursor. rewrite !list_elem_of_In. apply filter_In.
Qed.

Lemma loop_events_elem (c : list dict) (e : event) :
  e ∈ loop_events c -> exists d, d ∈ c /\ (e = Yield d \/ e = Print (id_as_text d)).
Proof.
  induction c as [|d c IH]; simpl.
  - intros Hin%elem_of_nil. contradiction.
  - rewrite !elem_of_cons. intros [-> | [-> | Hin]].
    + exists d. split; [apply elem_of_cons; left |]; auto.
    + exists d. split; [apply elem_of_cons; left |]; auto.
    + destruct (IH Hin) as (d' & Hd' & He). exists d'.
      split; [apply elem_of_cons; right |]; auto.
Qed.

Lemma connections_loop (c : list dict) : connections (loop_events c) = [].
Proof.
  induction c as [|d c IH]; simpl; [reflexivity | exact IH].
Qed.

Lemma connections_app (t t' : list event) :
  connections (t ++ t') = connections t ++ connections t'.
Proof.
  induction t as [|[] t IH]; simpl; rewrite ?IH; reflexivity.
Qed.

Lemma connections_limit_events (l : option Z) : connections (limit_events l) = [].
Proof. unfold limit_events. destruct (limit_applies l); reflexivity. Qed.

Lemma connections_setup (uris : list pystr) (limits : list Z) :
  connections (map MongoClient uris ++ map Limit limits) = uris.
Proof.
  rewrite connections_app.
  assert (Hl : connections (map Limit limits) = []).
  { induction limits as [|n limits IH]; simpl; [reflexivity | exact IH]. }
  rewrite Hl, app_nil_r.
  induction uris as [|u uris IH]; simpl; [reflexivity | rewrite IH; reflexivity].
Qed.

Lemma limit_in_main `{UnicodeData} `{Driver}
    (environ : gmap pystr pystr) (argv : command_line) (st : store) (n : Z) :
  Limit n ∈ trace (main environ (Accepted argv) st) ->
  limit_applies (opt_limit argv) = Some n.
Proof.
  destruct (reaches_store environ argv) as [uri|] eqn:Hok.
  - rewrite (main_run _ _ _ uri Hok). unfold trace. simpl.
    rewrite elem_of_cons, elem_of_app, elem_of_cons.
    intros [Hc | [Hin | [Hf | Hin]]]; [discriminate | | discriminate |].
    + unfold limit_events in Hin. destruct (limit_applies (opt_limit argv)) as [m|].
      * apply list_elem_of_singleton in Hin. congruence.
      * apply elem_of_nil in Hin. contradiction.
    + apply loop_events_elem in Hin as (d & _ & [Hd | Hd]); discriminate.
  - destruct (main_stopped _ _ st Hok) as (_ & uris & limits & -> & _ & _ & Hlim).
    rewrite elem_of_app, !list_elem_of_fmap.
    intros [(u & Hu & _) | (m & [= ->] & Hm)]; [discriminate | auto].
Qed.

Lemma yielded_matches `{UnicodeData} `{Driver}
    (environ : gmap pystr pystr) (argv : command_line) (st : store) (d : dict) :
  d ∈ yielded (trace (main environ (Accepted argv) st)) ->
  matches (query_of (opt_symbol argv)) d = true.
Proof.
  destruct (reaches_store environ argv) as [uri|] eqn:Hok.
  - rewrite (yielded_run _ _ _ uri Hok). intros Hd.
    destruct (limited_prefix (opt_limit argv)
                (find_cursor (st (db_name (namespace_of environ argv))
                                 (collection (namespace_of environ argv)))
                   (query_of (opt_symbol argv)))) as [rest Hrest].
    assert (Hin : d ∈ find_cursor (st (db_name (namespace_of environ argv))
                                      (collection (namespace_of environ argv)))
                        (query_of (opt_symbol argv))).
    { rewrite Hrest. apply elem_of_app. left. exact Hd. }
    apply find_cursor_elem in Hin as [_ Hm]. exact Hm.
  - rewrite (main_stopped_yielded _ _ _ Hok). intros Hd%elem_of_nil. contradiction.
Qed.

Lemma Forall_lstrip (P : codepoint -> Prop) (s : pystr) :
  Forall P s -> Forall P (lstrip s).
Proof.
  induction 1 as [|c s Hc Hs IH]; simpl; [constructor|].
  destruct (is_space c); [exact IH | constructor; assumption].
Qed.

Lemma Forall_rstrip (P : codepoint -> Prop) (s : pystr) :
  Forall P s -> Forall P (rstrip s).
Proof.
  induction 1 as [|c s Hc Hs IH]; simpl; [constructor|].
  destruct (rstrip s) as [|a r].
  - destruct (is_space c); repeat constructor. exact Hc.
  - constructor; assumption.
Qed.

Lemma upper_ascii `{UnicodeData} (s : pystr) :
  Forall (fun c => (c < 0x80)%N) s -> upper s = map ascii_upper s.
Proof.
  unfold upper. induction 1 as [|c s Hc Hs IH]; simpl; [reflexivity|].
  rewrite IH. unfold to_upper_full. apply N.ltb_lt in Hc. rewrite Hc. reflexivity.
Qed.

Lemma ascii_upper_not_lower (c : codepoint) :
  ~ (0x61 <= ascii_upper c <= 0x7A)%N.
Proof.
  unfold ascii_upper. case_leb; simpl; lia.
Qed.

(** X1. A run that ends with exit status 0 either served the help text
    or did all of its work: the command line was accepted,
    [MONGODB_URI] was set and non-empty, one connection was opened with
    it, the query was sent, and every document of its result sequence
    (cut to the limit when one applies) was printed on a line.  Exit
    status 2 is the usage error of the parser and nothing else. *)
Theorem exit_zero_means_done `{UnicodeData} `{Driver}
    (environ : gmap pystr pystr) (args : arguments) (st : store) :
  (exit_status (main environ args st) = 0%Z ->
   args = AskHelp
   \/ exists (argv : command_line) (uri : pystr) (q : dict),
        args = Accepted argv
        /\ getenv environ "MONGODB_URI" = Some uri /\ uri <> []
        /\ connections (trace (main environ args st)) = [uri]
        /\ filters_sent (trace (main environ args st)) = [q]
        /\ Find (db_name (namespace_of environ argv))
             (collection (namespace_of environ argv)) q
           ∈ trace (main environ args st)
        /\ yielded (trace (main environ args st))
           = match opt_limit argv with
             | Some n =>
                 if (0 <? n)%Z
                 then take (Z.to_nat n)
                        (find_cursor (st (db_name (namespace_of environ argv))
                                         (collection (namespace_of environ argv))) q)
                 else find_cursor (st (db_name (namespace_of environ argv))
                                      (collection (namespace_of environ argv))) q
             | None =>
                 find_cursor (st (db_name (namespace_of environ argv))
                                 (collection (namespace_of environ argv))) q
             end
        /\ length (printed (trace (main environ args st)))
           = length (yielded (trace (main environ args st))))
  /\ (exit_status (main environ args st) = 2%Z -> args = Rejected).
Proof.
  destruct args as [| |argv].
  - split; [intros _; left; reflexivity | discriminate].
  - split; [discriminate | reflexivity].
  - destruct (reaches_store environ argv) as [uri|] eqn:Hok.
    + split; [intros _; right | rewrite (main_run _ _ _ uri Hok); discriminate].
      pose proof (proj1 (reaches_store_Some _ _ _) Hok) as (Hget & Hne & _).
      exists argv, uri, (query_of (opt_symbol argv)).
      split; [reflexivity|]. split; [exact Hget|]. split; [exact Hne|].
      split; [|split; [apply (filters_sent_run _ _ _ uri Hok)|]].
      { rewrite (main_run _ _ _ uri Hok). unfold trace. simpl.
        rewrite connections_app, connections_limit_events. simpl.
        rewrite connections_loop. reflexivity. }
      split; [apply (find_sent _ _ _ uri Hok)|].
      split; [rewrite (yielded_run _ _ _ uri Hok); apply limited_spec|].
      rewrite printed_run, length_map. reflexivity.
    + destruct (main_stopped _ _ st Hok) as [Hone _]. rewrite Hone.
      split; discriminate.
Qed.

Lemma exit_zero_means_done_witness :
  exists (uri : pystr) (q : dict),
    getenv uri_only "MONGODB_URI" = Some uri
    /\ connections (trace (@main ascii_only online uri_only (Accepted limit_two)
                             sample_store)) = [uri]
    /\ filters_sent (trace (@main ascii_only online uri_only (Accepted limit_two)
                              sample_store)) = [q]
    /\ yielded (trace (@main ascii_only online uri_only (Accepted limit_two)
                         sample_store))
       = take 2 (find_cursor (sample_store (lit "TradingApp") (lit "HistoricalData")) q).
Proof.
  destruct (proj1 (@exit_zero_means_done ascii_only online uri_only (Accepted limit_two)
                     sample_store) eq_refl)
    as [Hhelp | (argv & uri & q & [= <-] & Hget & _ & Hconn & Hsent & _ & Hy & _)];
    [discriminate Hhelp|].
  exists uri, q. auto.
Defined.

(** X2. On every command line, a run opens at most one connection and
    sends at most one query; a connection is opened only with the value
    of [MONGODB_URI], which is then non-empty, and a query is sent only
    after the connection was opened. *)
Theorem at_most_one_connection_one_query `{UnicodeData} `{Driver}
    (environ : gmap pystr pystr) (args : arguments) (st : store) :
  length (connections (trace (main environ args st))) <= 1
  /\ length (filters_sent (trace (main environ args st))) <= 1
  /\ (forall u : pystr, u ∈ connections (trace (main environ args st)) ->
        getenv environ "MONGODB_URI" = Some u /\ u <> [])
  /\ (filters_sent (trace (main environ args st)) <> [] ->
        exists (u : pystr) (rest : list event),
          trace (main environ args st) = MongoClient u :: rest).
Proof.
  destruct args as [| |argv].
  - rewrite main_help. simpl. split; [lia|]. split; [lia|].
    split; [intros u Hu%elem_of_nil; contradiction | intros Hne; contradiction].
  - rewrite main_rejected. simpl. split; [lia|]. split; [lia|].
    split; [intros u Hu%elem_of_nil; contradiction | intros Hne; contradiction].
  - destruct (reaches_store environ argv) as [uri|] eqn:Hok.
    + pose proof (proj1 (reaches_store_Some _ _ _) Hok) as (Hget & Hne & _).
      rewrite (main_run _ _ _ uri Hok). unfold trace. simpl.
      rewrite connections_app, filters_sent_app, connections_limit_events,
        filters_sent_limit_events.
      simpl. rewrite connections_loop, filters_sent_loop. simpl.
      split; [lia|]. split; [lia|]. split; [|eauto].
      intros u ->%list_elem_of_singleton. auto.
    + rewrite (main_stopped_filters_sent _ _ _ Hok).
      destruct (main_stopped _ _ st Hok)
        as (_ & uris & limits & Htrace & Hone & Huris & _).
      rewrite Htrace, connections_setup.
      split; [exact Hone|]. split; [simpl; lia|]. split.
      * intros u Hu. apply truthy_Some. auto.
      * intros Hne. contradiction.
Qed.

(** X3. The driver is never handed a limit that is zero or negative: every
    limit passed to the cursor is the positive integer given with
    [--limit]. *)
Theorem limit_passed_is_positive `{UnicodeData} `{Driver}
    (environ : gmap pystr pystr) (argv : command_line) (st : store) (n : Z) :
  Limit n ∈ trace (main environ (Accepted argv) st) ->
  opt_limit argv = Some n /\ (0 < n)%Z.
Proof.
  intros Hin%limit_in_main. unfold limit_applies, int_truthy in Hin.
  destruct (opt_limit argv) as [m|]; [|discriminate].
  destruct (Z.ltb_spec 0 m).
  - destruct (negb (m =? 0)%Z); [|discriminate]. injection Hin as ->. auto.
  - rewrite andb_false_r in Hin. discriminate.
Qed.

Lemma limit_passed_is_positive_witness :
  opt_limit limit_two = Some 2%Z /\ (0 < 2)%Z.
Proof.
  apply (@limit_passed_is_positive ascii_only online uri_only limit_two sample_store 2%Z).
  apply list_elem_of_In. vm_compute. right. left. reflexivity.
Defined.

(** X4. Two non-empty symbols that agree, once stripped, up to the case
    of their letters (the stripped text being ASCII) give the same run:
    the same filter, the same driver calls, the same lines. *)
Theorem symbol_case_and_padding_insensitive `{UnicodeData} `{Driver}
    (environ : gmap pystr pystr) (argv : command_line) (st : store) (s s' : pystr) :
  s <> [] -> s' <> [] ->
  Forall (fun c => (c < 0x80)%N) (strip s') ->
  same_letters (strip s) (strip s') ->
  main environ (Accepted (set_symbol (Some s) argv)) st
  = main environ (Accepted (set_symbol (Some s') argv)) st.
Proof.
  intros Hs Hs' Hascii Hsame.
  pose proof (upper_same_letters _ _ Hascii Hsame) as Hup.
  destruct s as [|c s]; [contradiction|]. destruct s' as [|c' s']; [contradiction|].
  unfold main. cbn [parse_args]. rewrite !bind_ret_l.
  unfold namespace_of. simpl. rewrite Hup. reflexivity.
Qed.

Lemma symbol_case_and_padding_insensitive_witness :
  @main ascii_only online uri_only
    (Accepted (set_symbol (Some (lit "  MsFt ")) no_options)) sample_store
  = @main ascii_only online uri_only
      (Accepted (set_symbol (Some (lit "msft")) no_options)) sample_store.
Proof.
  apply (@symbol_case_and_padding_insensitive ascii_only online uri_only no_options
           sample_store (lit "  MsFt ") (lit "msft")).
  - discriminate.
  - discriminate.
  - repeat (constructor; [reflexivity|]). constructor.
  - reflexivity.
Defined.

(** X5. When [--symbol] is given with a non-empty value, every document
    printed has the normalised symbol in its [symbol] field. *)
Theorem printed_documents_carry_symbol `{UnicodeData} `{Driver}
    (environ : gmap pystr pystr) (argv : command_line) (st : store) (s : pystr) :
  opt_symbol argv = Some s -> s <> [] ->
  Forall (fun d : dict => getitem (lit "symbol") d = Some (Str (upper (strip s))))
    (printed (trace (main environ (Accepted argv) st))).
Proof.
  intros Hs Hne. rewrite printed_run. apply Forall_forall.
  intros e (d & -> & Hd)%list_elem_of_fmap.
  rewrite id_as_text_other by discriminate.
  apply yielded_matches in Hd. rewrite Hs in Hd.
  unfold query_of in Hd. destruct s as [|c s]; [contradiction|].
  simpl in Hd. rewrite andb_true_r in Hd.
  apply bool_decide_eq_true in Hd. exact Hd.
Qed.

Lemma printed_documents_carry_symbol_witness :
  Forall (fun d : dict => getitem (lit "symbol") d
                          = Some (Str (@upper ascii_only (strip (lit "  MsFt ")))))
    (printed (trace (@main ascii_only online uri_only (Accepted padded_msft)
                       sample_store))).
Proof.
  apply (@printed_documents_carry_symbol ascii_only online uri_only padded_msft
           sample_store (lit "  MsFt ")); [reflexivity | discriminate].
Defined.

(** X6. The result sequence is an initial segment of the documents that
    match the query, in the order of the store: documents are printed
    from the first match on, without gaps or repetition. *)
Theorem result_sequence_is_prefix `{UnicodeData} `{Driver}
    (environ : gmap pystr pystr) (argv : command_line) (st : store)
    (db coll : pystr) (q : dict) :
  Find db coll q ∈ trace (main environ (Accepted argv) st) ->
  exists rest : list dict,
    find_cursor (st db coll) q
    = yielded (trace (main environ (Accepted argv) st)) ++ rest.
Proof.
  intros ([uri Hok] & -> & -> & ->)%find_in_main.
  rewrite (yielded_run _ _ _ uri Hok). apply limited_prefix.
Qed.

Lemma result_sequence_is_prefix_witness :
  exists rest : list dict,
    find_cursor (sample_store (lit "TradingApp") (lit "HistoricalData")) []
    = yielded (trace (@main ascii_only online uri_only (Accepted limit_two)
                        sample_store)) ++ rest.
Proof.
  apply (@result_sequence_is_prefix ascii_only online uri_only limit_two sample_store).
  apply (@find_sent ascii_only online uri_only limit_two sample_store
           (lit "mongodb://localhost")). reflexivity.
Defined.

(** X7. A limit that is not smaller than the number of lines the
    invocation prints without [--limit] changes nothing in the output. *)
Theorem large_limit_prints_all `{UnicodeData} `{Driver}
    (environ : gmap pystr pystr) (argv : command_line) (st : store) (n : Z) :
  opt_limit argv = Some n ->
  (Z.of_nat (length (printed (trace (main environ (Accepted (set_limit None argv)) st))))
   <= n)%Z ->
  printed (trace (main environ (Accepted argv) st))
  = printed (trace (main environ (Accepted (set_limit None argv)) st)).
Proof.
  intros Hl. rewrite !printed_run, length_map.
  assert (Hsame : reaches_store environ (set_limit None argv)
                  = reaches_store environ argv) by reflexivity.
  destruct (reaches_store environ argv) as [uri|] eqn:Hok.
  - rewrite (yielded_run _ _ _ uri Hok), (yielded_run _ _ _ uri Hsame), Hl.
    unfold namespace_of. simpl.
    set (c := find_cursor _ _). unfold limited at 1 3. simpl.
    intros Hn. f_equal. unfold limited.
    destruct (limit_applies (Some n)) as [m|] eqn:Hm; [|reflexivity].
    unfold limit_applies in Hm. destruct (int_truthy n && (0 <? n)%Z); [|discriminate].
    injection Hm as <-. unfold limit_cursor. destruct (n =? 0)%Z; [reflexivity|].
    apply take_ge. lia.
  - rewrite (main_stopped_yielded _ _ _ Hok), (main_stopped_yielded _ _ _ Hsame).
    reflexivity.
Qed.

Lemma large_limit_prints_all_witness :
  printed (trace (@main ascii_only online uri_only (Accepted limit_nine) sample_store))
  = printed (trace (@main ascii_only online uri_only
                      (Accepted (set_limit None limit_nine)) sample_store)).
Proof.
  apply (@large_limit_prints_all ascii_only online uri_only limit_nine sample_store 9%Z);
    [reflexivity | vm_compute; discriminate].
Defined.

(** X8. A document whose [_id] is already a text string is printed
    exactly as it was retrieved. *)
Theorem text_id_printed_as_retrieved `{UnicodeData} `{Driver}
    (environ : gmap pystr pystr) (argv : command_line) (st : store) :
  Forall2
    (fun retrieved emitted : dict =>
       forall s : pystr,
         getitem (lit "_id") retrieved = Some (Str s) -> emitted = retrieved)
    (yielded (trace (main environ (Accepted argv) st)))
    (printed (trace (main environ (Accepted argv) st))).
Proof.
  rewrite printed_run. apply Forall2_map_same.
  intros d s Hd. unfold id_as_text. rewrite Hd. apply setitem_same, Hd.
Qed.



(** X10. The run reads the store only at the configured collection of
    the configured database: two stores with the same documents there
    give the same run. *)
Theorem store_frame `{UnicodeData} `{Driver}
    (environ : gmap pystr pystr) (argv : command_line) (st st' : store) :
  st (db_name (namespace_of environ argv)) (collection (namespace_of environ argv))
  = st' (db_name (namespace_of environ argv)) (collection (namespace_of environ argv)) ->
  main environ (Accepted argv) st = main environ (Accepted argv) st'.
Proof.
  intros Hst.
  destruct (reaches_store environ argv) as [uri|] eqn:Hok.
  - rewrite !(main_run _ _ _ uri Hok). cbv zeta. rewrite Hst. reflexivity.
  - unfold reaches_store in Hok. unfold main. cbn [parse_args]. rewrite !bind_ret_l.
    destruct (truthy (getenv environ "MONGODB_URI")) as [uri|]; [|reflexivity].
    unfold new_MongoClient, get_database, get_collection, for_each, fetch.
    destruct (valid_uri uri); [|reflexivity].
    destruct (valid_database_name _); [|reflexivity].
    destruct (valid_collection_name _); [|reflexivity].
    cbn [andb] in Hok. destruct (answers uri _ _) eqn:Hans; [discriminate|].
    destruct (limit (namespace_of environ argv)) as [n|];
      [destruct (int_truthy n && (0 <? n)%Z)|];
      cbv [bind col_find cursor_limit emit ret cur_collection cur_filter cur_limit
           c_database c_name d_client d_name];
      rewrite Hans; reflexivity.
Qed.

Lemma store_frame_witness :
  @main ascii_only online uri_only (Accepted limit_two) sample_store
  = @main ascii_only online uri_only (Accepted limit_two) two_collections.
Proof.
  apply (@store_frame ascii_only online uri_only limit_two sample_store two_collections).
  reflexivity.
Defined.

(** X11. A database or collection named on the command line is the one
    queried, whatever [MONGODB_DB] holds. *)
Theorem command_line_names_win `{UnicodeData} `{Driver}
    (environ : gmap pystr pystr) (argv : command_line) (st : store)
    (db coll : pystr) (q : dict) :
  Find db coll q ∈ trace (main environ (Accepted argv) st) ->
  (forall d : pystr, opt_db_name argv = Some d -> db = d)
  /\ (forall c : pystr, opt_collection argv = Some c -> coll = c).
Proof.
  intros (_ & -> & -> & _)%find_in_main. unfold namespace_of. simpl.
  split; intros x Hx; rewrite Hx; reflexivity.
Qed.

Lemma command_line_names_win_witness :
  (forall d : pystr, opt_db_name paper_archive = Some d -> lit "Paper" = d)
  /\ (forall c : pystr, opt_collection paper_archive = Some c -> lit "Archive" = c).
Proof.
  apply (@command_line_names_win ascii_only online uri_and_db paper_archive
           two_collections (lit "Paper") (lit "Archive") []).
  apply (@find_sent ascii_only online uri_and_db paper_archive two_collections
           (lit "mongodb://localhost")). reflexivity.
Defined.

(** X12. When [--symbol] is given with a non-empty ASCII value, no
    document printed has a lowercase ASCII letter in a text [symbol]
    field: documents stored with a lowercase symbol are never selected. *)
Theorem lowercase_symbols_never_printed `{UnicodeData} `{Driver}
    (environ : gmap pystr pystr) (argv : command_line) (st : store) (s : pystr) :
  opt_symbol argv = Some s -> s <> [] ->
  Forall (fun c => (c < 0x80)%N) s ->
  Forall (fun d : dict =>
            forall v : pystr,
              getitem (lit "symbol") d = Some (Str v) ->
              Forall (fun c => ~ (0x61 <= c <= 0x7A)%N) v)
    (printed (trace (main environ (Accepted argv) st))).
Proof.
  intros Hs Hne Hascii. rewrite printed_run. apply Forall_forall.
  intros e (d & -> & Hd)%list_elem_of_fmap v.
  rewrite id_as_text_other by discriminate.
  apply yielded_matches in Hd. rewrite Hs in Hd.
  unfold query_of in Hd. destruct s as [|c s]; [contradiction|].
  simpl in Hd. rewrite andb_true_r in Hd.
  apply bool_decide_eq_true in Hd.
  assert (Hsym : getitem (lit "symbol") d = Some (Str (upper (strip (c :: s)))))
    by exact Hd.
  rewrite Hsym. intros [= <-].
  rewrite upper_ascii by (unfold strip; apply Forall_rstrip, Forall_lstrip, Hascii).
  apply Forall_forall. intros x (y & -> & _)%list_elem_of_fmap.
  apply ascii_upper_not_lower.
Qed.

Lemma lowercase_symbols_never_printed_witness :
  Forall (fun d : dict =>
            forall v : pystr,
              getitem (lit "symbol") d = Some (Str v) ->
              Forall (fun c => ~ (0x61 <= c <= 0x7A)%N) v)
    (printed (trace (@main ascii_only online uri_only (Accepted lower_msft)
                       sample_store))).
Proof.
  apply (@lowercase_symbols_never_printed ascii_only online uri_only lower_msft
           sample_store (lit "msft")); [reflexivity | discriminate |].
  repeat (constructor; [reflexivity|]). constructor.
Defined.
